(** * GenerateAndLoadData: batch orchestration of data generation and loading

    Shallow embedding of
    [cumulusci/tasks/bulkdata/generate_and_load_data.py]
    (class [GenerateAndLoadData]) and the properties of its option
    validation, batch loop and per-batch table life cycle.

    The task composes collaborators that live outside the file: SQLAlchemy
    ([create_engine], [MetaData.reflect], [MetaData.drop_all]), the
    temporary-file library, the pluggable generator class and [LoadData].
    They are the operations of the [Collaborators] class below, over an
    arbitrary world state; every theorem holds for every implementation of
    them.  A small in-memory implementation ([Sim]) is used to run the
    embedding on concrete inputs. *)

From Stdlib Require Import ZArith Ascii String List Lia.
From stdpp Require Import base option list gmap strings.

Local Open Scope string_scope.
Local Open Scope list_scope.
Local Open Scope Z_scope.

(** ** Python values held by the option bag *)

(** Option values reach the task from YAML or the command line: [None],
    booleans, integers and strings. *)
Inductive pyval : Type :=
| PNone
| PBool (b : bool)
| PInt (z : Z)
| PStr (s : string).

(** Python truthiness, as used by [if x:], [not x] and [x or y]. *)
Definition truthy (v : pyval) : bool :=
  match v with
  | PNone => false
  | PBool b => b
  | PInt z => negb (z =? 0)
  | PStr s => negb (String.eqb s "")
  end.

(** [a or b] *)
Definition py_or (a b : pyval) : pyval := if truthy a then a else b.

(** The option bag: a Python [dict] with string keys. *)
Abbreviation options := (gmap string pyval).

(** [d.get(k)] and [d.get(k, None)] *)
Definition dict_get (d : options) (k : string) : pyval :=
  default PNone (d !! k).

(** [d.get(k, dflt)] *)
Definition dict_get_default (d : options) (k : string) (dflt : pyval) : pyval :=
  default dflt (d !! k).

(** ** Exceptions *)

(** The three [TaskOptionsError]s the task raises, by their message. *)
Inductive options_error : Type :=
| MappingNotFound (path : string)
    (* f"{self.mapping_file} cannot be found." *)
| BatchSizeNotPositive
    (* "Batch size should be greater than zero" *)
| DatabaseHasTables (url : pyval) (tables : list string)
    (* f"Database {url} has tables ({list(tables)}) but `replace_database` was not specified" *).

Inductive exn : Type :=
| TaskOptionsError (e : options_error)
| KeyError (k : string)
| ValueError
| TypeError
| OtherError (name : string).

(** The configuration-error kind is [TaskOptionsError]. *)
Definition is_config_error (e : exn) : bool :=
  match e with TaskOptionsError _ => true | _ => false end.

(** ** [int(x)] *)

Definition is_space (c : ascii) : bool :=
  let n := nat_of_ascii c in
  ((9 <=? n)%nat && (n <=? 13)%nat) || ((28 <=? n)%nat && (n <=? 32)%nat).

Definition digit_of (c : ascii) : option Z :=
  let n := nat_of_ascii c in
  if ((48 <=? n)%nat && (n <=? 57)%nat)%bool then Some (Z.of_nat n - 48) else None.

(** Decimal digits, single underscores allowed between two digits. *)
Fixpoint parse_digits (acc : Z) (after_digit : bool) (l : list ascii) : option Z :=
  match l with
  | [] => if after_digit then Some acc else None
  | c :: r =>
      match digit_of c with
      | Some d => parse_digits (10 * acc + d) true r
      | None =>
          if (Ascii.eqb c "_" && after_digit)%bool
          then parse_digits acc false r
          else None
      end
  end.

Fixpoint drop_spaces (l : list ascii) : list ascii :=
  match l with
  | c :: r => if is_space c then drop_spaces r else l
  | [] => []
  end.

Definition strip (l : list ascii) : list ascii :=
  rev (drop_spaces (rev (drop_spaces l))).

(** [int(s)] for a string, base 10: surrounding whitespace, an optional
    sign, digits. *)
Definition int_of_string (s : string) : option Z :=
  match strip (list_ascii_of_string s) with
  | c :: r =>
      if Ascii.eqb c "-" then Z.opp <$> parse_digits 0 false r
      else if Ascii.eqb c "+" then parse_digits 0 false r
      else parse_digits 0 false (c :: r)
  | [] => None
  end.

Definition py_int (v : pyval) : exn + Z :=
  match v with
  | PNone => inl TypeError
  | PBool b => inr (if b then 1 else 0)
  | PInt z => inr z
  | PStr s => match int_of_string s with Some z => inr z | None => inl ValueError end
  end.

(** [s.endswith(suffix)] *)
Definition endswith (s suffix : string) : bool :=
  let n := String.length s in
  let k := String.length suffix in
  ((k <=? n)%nat && String.eqb (substring (n - k) k s) suffix)%bool.

(** ** Collaborators, events and the task monad *)

(** What a run does to its collaborators, in the order it does it.  A call
    is recorded when it returns, with its outcome ([None]: no exception).
    The generation step is constructed on the very dict [_generate_batch]
    goes on using, so its outcome, when it returns, is that dict as the
    step left it. *)
Inductive event : Type :=
| EvCreateEngine (database_url : pyval) (raised : option exn)
| EvReflect (outcome : exn + list string)
| EvDropAll (tables : list string) (raised : option exn)
| EvTempDir (name : string)
| EvTempDirCleanup (name : string)
| EvTempFile (name : string)
| EvTempFileClose (name : string)
| EvInfo (current_batch_size index total_records : Z)
| EvDatagen (subtask_options : options) (outcome : exn + options)
| EvDataload (subtask_options : options) (raised : option exn).

Definition raised_of {A} (r : exn + A) : option exn :=
  match r with inl e => Some e | inr _ => None end.

(** The world outside the task: file system, databases, the org.
    [Engine] is SQLAlchemy's engine handle, [Task] a resolved generator
    class. *)
Class Collaborators (World Engine Task : Type) := {
  (* os.path.exists, os.path.abspath, str(Path(a) / b) *)
  path_exists : string -> World -> bool;
  abspath : string -> World -> string;
  path_join : string -> string -> string;
  (* cumulusci.core.utils.import_global *)
  import_global : pyval -> World -> (exn + Task) * World;
  (* sqlalchemy: create_engine(url); MetaData(engine).reflect() and the
     names in metadata.tables; metadata.drop_all(tables=...) *)
  create_engine : pyval -> World -> (exn + Engine) * World;
  reflect : Engine -> World -> (exn + list string) * World;
  drop_all : Engine -> list string -> World -> (exn + unit) * World;
  (* tempfile.TemporaryDirectory: creation, which may raise, and cleanup on
     exit, taken to succeed *)
  mkdtemp : World -> (exn + string) * World;
  rmtree : string -> World -> World;
  (* tempfile.NamedTemporaryFile(suffix=...): creation, which may raise, and
     deletion on exit, taken to succeed *)
  mkstemp : string -> World -> (exn + string) * World;
  unlink : string -> World -> World;
  (* the generator class: construct on the options dict, then call; the
     result is the dict as the call left it *)
  run_generator : Task -> options -> World -> (exn + options) * World;
  (* LoadData: construct with the options, then call *)
  run_load_data : options -> World -> (exn + unit) * World
}.

(** [self] after [_init_options]. *)
Record GenerateAndLoadData (Task : Type) := {
  self_options : options;
  mapping_file : pyval;
  database_url : pyval;
  num_records : Z;
  batch_size : Z;
  class_path : pyval;
  data_generation_task : Task;
  debug_dir : pyval
}.
Arguments self_options {Task} _.
Arguments mapping_file {Task} _.
Arguments database_url {Task} _.
Arguments num_records {Task} _.
Arguments batch_size {Task} _.
Arguments class_path {Task} _.
Arguments data_generation_task {Task} _.
Arguments debug_dir {Task} _.

(** [metadata]: the engine it is bound to and the reflected table names,
    in the order of [metadata.tables]. *)
Record MetaData (Engine : Type) := {
  md_bind : Engine;
  md_tables : list string
}.
Arguments md_bind {Engine} _.
Arguments md_tables {Engine} _.

(** Computations that may raise: the world survives an exception, and so
    does the record of what was done before it. *)
Definition M (World A : Type) : Type := World -> (exn + A) * World * list event.

Definition ret {World A} (a : A) : M World A := fun w => (inr a, w, []).

Definition raise {World A} (e : exn) : M World A := fun w => (inl e, w, []).

Definition bind {World A B} (m : M World A) (f : A -> M World B) : M World B :=
  fun w =>
    match m w with
    | (inl e, w1, t1) => (inl e, w1, t1)
    | (inr a, w1, t1) =>
        match f a w1 with
        | (r, w2, t2) => (r, w2, t1 ++ t2)
        end
    end.

Notation "'let*' x ':=' m 'in' k" := (bind m (fun x => k))
  (at level 10, x binder, m at level 100, k at level 200).
Notation "'do' m 'then' k" := (bind m (fun _ => k))
  (at level 10, m at level 100, k at level 200).

(** A collaborator call, recorded with its outcome. *)
Definition call {World A} (op : World -> (exn + A) * World)
    (ev : exn + A -> event) : M World A :=
  fun w => match op w with (r, w1) => (r, w1, [ev r]) end.

(** A collaborator call that leaves no record. *)
Definition quiet {World A} (op : World -> (exn + A) * World) : M World A :=
  fun w => match op w with (r, w1) => (r, w1, []) end.

Definition lift_result {World A} (r : exn + A) : M World A :=
  match r with inl e => raise e | inr a => ret a end.

Definition emit {World} (ev : event) : M World unit := fun w => (inr tt, w, [ev]).

Definition read {World A} (f : World -> A) : M World A := fun w => (inr (f w), w, []).

(** [for x in l: body(x)] *)
Fixpoint for_each {World A} (l : list A) (body : A -> M World unit) : M World unit :=
  match l with
  | [] => ret tt
  | x :: rest => do body x then for_each rest body
  end.

(** ** The partition into batches *)

(** Modelled from the spec: [cumulusci.tasks.bulkdata.utils.generate_batches]
    is imported by the task but is not among the sources.  The spec's
    partitioning algorithm: "given total N and batch size B, produce batches
    of size B repeated floor(N/B) times, followed by one final batch of size
    N mod B if non-zero, indices 0,1,2,...". *)
Definition batch_sizes (N B : Z) : list Z :=
  replicate (Z.to_nat (N / B)) B ++ (if decide (N mod B = 0) then [] else [N mod B]).

Definition generate_batches (N B : Z) : list (Z * Z) :=
  let sizes := batch_sizes N B in
  zip sizes (seqZ 0 (Z.of_nat (length sizes))).

Definition sum_sizes (l : list Z) : Z := foldr Z.add 0 l.

(** ** The task *)

(** The list comprehension of [_cleanup_object_tables]:
    [[table for tablename, table in tables.items()
      if not tablename.endswith("sf_ids")]]. *)
Definition tables_to_drop (tables : list string) : list string :=
  filter (fun tablename => negb (endswith tablename "sf_ids") = true) tables.

Section Task.
Context {World Engine Task : Type} `{!Collaborators World Engine Task}.

#[local] Abbreviation M := (M World).

(** [with TemporaryDirectory() as tempdir: body] *)
Definition TemporaryDirectory {A} (body : string -> M A) : M A :=
  fun w =>
    match mkdtemp w with
    | (inl e, w1) => (inl e, w1, [])
    | (inr tempdir, w1) =>
        match body tempdir w1 with
        | (r, w2, t) =>
            (r, rmtree tempdir w2, EvTempDir tempdir :: t ++ [EvTempDirCleanup tempdir])
        end
    end.

(** [with NamedTemporaryFile(suffix=suffix) as f: body(f.name)] *)
Definition NamedTemporaryFile {A} (suffix : string) (body : string -> M A) : M A :=
  fun w =>
    match mkstemp suffix w with
    | (inl e, w1) => (inl e, w1, [])
    | (inr name, w1) =>
        match body name w1 with
        | (r, w2, t) =>
            (r, unlink name w2, EvTempFile name :: t ++ [EvTempFileClose name])
        end
    end.

(** [_setup_engine] *)
Definition _setup_engine (database_url : pyval) : M (MetaData Engine) :=
  let* engine := call (create_engine database_url)
                      (fun r => EvCreateEngine database_url (raised_of r)) in
  let* tables := call (reflect engine) EvReflect in
  ret {| md_bind := engine; md_tables := tables |}.

(** [_cleanup_object_tables] *)
Definition _cleanup_object_tables (metadata : MetaData Engine) : M unit :=
  let tables := md_tables metadata in
  let tables_to_drop := tables_to_drop tables in
  match tables_to_drop with
  | [] => ret tt
  | _ :: _ =>
      call (drop_all (md_bind metadata) tables_to_drop)
           (fun r => EvDropAll tables_to_drop (raised_of r))
  end.

(** [_init_options], after [super()._init_options(kwargs)] has stored the
    merged options in [self.options]. *)
Definition _init_options (opts : options) : M (GenerateAndLoadData Task) :=
  let mapping_option := dict_get opts "mapping" in
  let* mapping_file :=
    (if truthy mapping_option then
       match mapping_option with
       | PStr p =>
           let* path := read (abspath p) in
           let* found := read (path_exists path) in
           if found : bool then ret (PStr path)
           else raise (TaskOptionsError (MappingNotFound path))
       | _ => raise TypeError
       end
     else ret PNone) in
  let* num_records :=
    match opts !! "num_records" with
    | Some v => lift_result (py_int v)
    | None => raise (KeyError "num_records")
    end in
  let* batch_size :=
    lift_result (py_int (dict_get_default opts "batch_size" (PInt num_records))) in
  if batch_size <=? 0 then raise (TaskOptionsError BatchSizeNotPositive)
  else
    let class_path := dict_get opts "data_generation_task" in
    let* data_generation_task := quiet (import_global class_path) in
    let debug_dir := dict_get opts "debug_dir" in
    let database_url := dict_get opts "database_url" in
    let self := {| self_options := opts;
                   mapping_file := mapping_file;
                   database_url := database_url;
                   num_records := num_records;
                   batch_size := batch_size;
                   class_path := class_path;
                   data_generation_task := data_generation_task;
                   debug_dir := debug_dir |} in
    if truthy database_url then
      let* metadata := _setup_engine database_url in
      let tables := md_tables metadata in
      if (negb (length tables =? 0)%nat && negb (truthy (dict_get opts "replace_database")))%bool
      then raise (TaskOptionsError (DatabaseHasTables database_url tables))
      else ret self
    else ret self.

(** [_datagen]: the generator is constructed on [subtask_options] itself
    ([TaskConfig({"options": subtask_options})]) and called; the result is
    that dict after the call.  [_dataload] is the last to see the dict. *)
Definition _datagen (self : GenerateAndLoadData Task) (subtask_options : options)
    : M options :=
  call (run_generator (data_generation_task self) subtask_options)
       (EvDatagen subtask_options).

Definition _dataload (subtask_options : options) : M unit :=
  call (run_load_data subtask_options)
       (fun r => EvDataload subtask_options (raised_of r)).

(** The locator of the transient store:
    [f"sqlite:///{Path(tempdir) / 'generated_data.db'}"]. *)
Definition sqlite_url (tempdir : string) : pyval :=
  PStr ("sqlite:///" +:+ path_join tempdir "generated_data.db").

(** The dict literal of [_generate_batch]. *)
Definition make_subtask_options (opts : options)
    (mapping_file database_url tempdir : pyval) (batch_size index : Z) : options :=
  <["reset_oids" := PBool false]>
  (<["working_directory" := tempdir]>
  (<["current_batch_number" := PInt index]>
  (<["num_records" := PInt batch_size]>
  (<["database_url" := database_url]>
  (<["reset_oids" := PBool false]>
  (<["mapping" := mapping_file]> opts)))))).

(** [_generate_batch] *)
Definition _generate_batch (self : GenerateAndLoadData Task)
    (database_url tempdir mapping_file : pyval) (batch_size index : Z) : M unit :=
  let* database_url :=
    (if negb (truthy database_url) then
       match tempdir with
       | PStr d => ret (sqlite_url d)
       | _ => raise TypeError
       end
     else ret database_url) in
  let* metadata := _setup_engine database_url in
  do _cleanup_object_tables metadata then
  let subtask_options :=
    make_subtask_options (self_options self) mapping_file database_url tempdir
                         batch_size index in
  NamedTemporaryFile "_mapping.yml" (fun generated_mapping_file =>
    let subtask_options :=
      <["generate_mapping_file" := PStr generated_mapping_file]> subtask_options in
    let* subtask_options := _datagen self subtask_options in
    let subtask_options :=
      if negb (truthy (dict_get subtask_options "mapping"))
      then <["mapping" := PStr generated_mapping_file]> subtask_options
      else subtask_options in
    _dataload subtask_options).

(** The body of the [for] loop of [_run_task]. *)
Definition _run_task_body (self : GenerateAndLoadData Task) (tempdir : string)
    (batch : Z * Z) : M unit :=
  let '(current_batch_size, index) := batch in
  do emit (EvInfo current_batch_size index (num_records self)) then
  _generate_batch self (database_url self)
    (py_or (debug_dir self) (PStr tempdir))
    (mapping_file self) current_batch_size index.

(** [_run_task] *)
Definition _run_task (self : GenerateAndLoadData Task) : M unit :=
  TemporaryDirectory (fun tempdir =>
    for_each (generate_batches (num_records self) (batch_size self))
             (_run_task_body self tempdir)).

(** Modelled from the spec: the task runner ([BaseTask], not among the
    sources) constructs the task, which runs [_init_options], and calls
    it, which runs [_run_task]; options are "validated eagerly before any
    batch runs" and a failed validation means the task is never called. *)
Definition construct_and_call (opts : options) : M unit :=
  let* self := _init_options opts in
  _run_task self.

End Task.

(** ** Observations on a record of events *)

(** The batches announced by the loop, as (size, index). *)
Definition infos_of (t : list event) : list (Z * Z) :=
  omap (fun ev => match ev with EvInfo s i _ => Some (s, i) | _ => None end) t.

Definition is_info (ev : event) : bool :=
  match ev with EvInfo _ _ _ => true | _ => false end.

Definition is_datagen (ev : event) : bool :=
  match ev with EvDatagen _ _ => true | _ => false end.

Definition is_dataload (ev : event) : bool :=
  match ev with EvDataload _ _ => true | _ => false end.

(** An invocation of the generation or of the loading step. *)
Definition is_step (ev : event) : bool :=
  match ev with
  | EvDatagen _ _ | EvDataload _ _ => true
  | _ => false
  end.

(** An event of a batch: anything but validation's look at the schema. *)
Definition is_batch_event (ev : event) : bool :=
  match ev with
  | EvCreateEngine _ _ | EvReflect _ => false
  | _ => true
  end.


(** Every event a computation records, from any world, satisfies [P]. *)
Definition emits {World A} (P : event -> Prop) (m : M World A) : Prop :=
  forall w, Forall P (m w).2.




Definition result_of {World A} (x : (exn + A) * World * list event) : exn + A := x.1.1.
Definition world_of {World A} (x : (exn + A) * World * list event) : World := x.1.2.
Definition trace_of {World A} (x : (exn + A) * World * list event) : list event := x.2.

(** ** The course of one batch *)

Section Batch.
Context {World Engine Task : Type} `{!Collaborators World Engine Task}.

(** The locator a batch works on: the caller's, or the transient store
    in the directory the batch was given. *)
Definition staging_locator (database_url tempdir : pyval) : exn + pyval :=
  if truthy database_url then inr database_url
  else match tempdir with
       | PStr d => inr (sqlite_url d)
       | _ => inl TypeError
       end.

(** The option bag at the call of the generation step. *)
Definition generation_options (opts : options)
    (mapping_file locator tempdir : pyval) (batch_size index : Z)
    (generated_mapping_file : string) : options :=
  <["generate_mapping_file" := PStr generated_mapping_file]>
    (make_subtask_options opts mapping_file locator tempdir batch_size index).

(** The option bag at the call of the loading step: the dict as the
    generation step left it, with the generated mapping adopted when it
    holds no mapping. *)
Definition loading_options (left : options) (generated_mapping_file : string)
    : options :=
  if truthy (dict_get left "mapping") then left
  else <["mapping" := PStr generated_mapping_file]> left.

(** A successful [_cleanup_object_tables]: the world it leaves and what
    it records. *)
Definition cleanup_done (engine : Engine) (tables : list string) (w w' : World)
    : Prop :=
  match tables_to_drop tables with
  | [] => w' = w
  | _ :: _ => drop_all engine (tables_to_drop tables) w = (inr tt, w')
  end.

Definition cleanup_events (tables : list string) : list event :=
  match tables_to_drop tables with
  | [] => []
  | _ :: _ => [EvDropAll (tables_to_drop tables) None]
  end.

(** The seven ways a batch can go, by the outcome of each collaborator. *)
Inductive batch_run (self : GenerateAndLoadData Task)
    (database_url tempdir mapping : pyval) (size index : Z) (w : World)
    : (exn + unit) * World * list event -> Prop :=
| run_no_locator e :
    staging_locator database_url tempdir = inl e ->
    batch_run self database_url tempdir mapping size index w (inl e, w, [])
| run_engine_raised locator e w1 :
    staging_locator database_url tempdir = inr locator ->
    create_engine locator w = (inl e, w1) ->
    batch_run self database_url tempdir mapping size index w
      (inl e, w1, [EvCreateEngine locator (Some e)])
| run_reflect_raised locator engine w1 e w2 :
    staging_locator database_url tempdir = inr locator ->
    create_engine locator w = (inr engine, w1) ->
    reflect engine w1 = (inl e, w2) ->
    batch_run self database_url tempdir mapping size index w
      (inl e, w2, [EvCreateEngine locator None; EvReflect (inl e)])
| run_drop_raised locator engine w1 tables w2 e w3 :
    staging_locator database_url tempdir = inr locator ->
    create_engine locator w = (inr engine, w1) ->
    reflect engine w1 = (inr tables, w2) ->
    tables_to_drop tables <> [] ->
    drop_all engine (tables_to_drop tables) w2 = (inl e, w3) ->
    batch_run self database_url tempdir mapping size index w
      (inl e, w3,
       [EvCreateEngine locator None; EvReflect (inr tables);
        EvDropAll (tables_to_drop tables) (Some e)])
| run_no_scratch_file locator engine w1 tables w2 w3 e w4 :
    staging_locator database_url tempdir = inr locator ->
    create_engine locator w = (inr engine, w1) ->
    reflect engine w1 = (inr tables, w2) ->
    cleanup_done engine tables w2 w3 ->
    mkstemp "_mapping.yml" w3 = (inl e, w4) ->
    batch_run self database_url tempdir mapping size index w
      (inl e, w4,
       [EvCreateEngine locator None; EvReflect (inr tables)] ++
       cleanup_events tables)
| run_generation_raised locator engine w1 tables w2 w3 name w4 e w5 :
    staging_locator database_url tempdir = inr locator ->
    create_engine locator w = (inr engine, w1) ->
    reflect engine w1 = (inr tables, w2) ->
    cleanup_done engine tables w2 w3 ->
    mkstemp "_mapping.yml" w3 = (inr name, w4) ->
    run_generator (data_generation_task self)
      (generation_options (self_options self) mapping locator tempdir size index name)
      w4 = (inl e, w5) ->
    batch_run self database_url tempdir mapping size index w
      (inl e, unlink name w5,
       [EvCreateEngine locator None; EvReflect (inr tables)] ++
       cleanup_events tables ++
       [EvTempFile name;
        EvDatagen (generation_options (self_options self) mapping locator tempdir
                                      size index name) (inl e);
        EvTempFileClose name])
| run_loading locator engine w1 tables w2 w3 name w4 left w5 r w6 :
    staging_locator database_url tempdir = inr locator ->
    create_engine locator w = (inr engine, w1) ->
    reflect engine w1 = (inr tables, w2) ->
    cleanup_done engine tables w2 w3 ->
    mkstemp "_mapping.yml" w3 = (inr name, w4) ->
    run_generator (data_generation_task self)
      (generation_options (self_options self) mapping locator tempdir size index name)
      w4 = (inr left, w5) ->
    run_load_data (loading_options left name) w5 = (r, w6) ->
    batch_run self database_url tempdir mapping size index w
      (r, unlink name w6,
       [EvCreateEngine locator None; EvReflect (inr tables)] ++
       cleanup_events tables ++
       [EvTempFile name;
        EvDatagen (generation_options (self_options self) mapping locator tempdir
                                      size index name) (inr left);
        EvDataload (loading_options left name) (raised_of r);
        EvTempFileClose name]).

End Batch.

(** ** The checks of [_init_options], one by one *)


(** The checks on [num_records] and [batch_size]: the two counts, or the
    exception of the first check that fails. *)
Definition check_sizes (opts : options) : exn + Z * Z :=
  match opts !! "num_records" with
  | None => inl (KeyError "num_records")
  | Some v =>
      match py_int v with
      | inl e => inl e
      | inr n =>
          match py_int (dict_get_default opts "batch_size" (PInt n)) with
          | inl e => inl e
          | inr b =>
              if b <=? 0 then inl (TaskOptionsError BatchSizeNotPositive)
              else inr (n, b)
          end
      end
  end.

Section Validation.
Context {World Engine Task : Type} `{!Collaborators World Engine Task}.

(** The check on [mapping]: [self.mapping_file], or the exception. *)
Definition check_mapping (opts : options) (w : World) : exn + pyval :=
  let m := dict_get opts "mapping" in
  if truthy m then
    match m with
    | PStr p =>
        if path_exists (abspath p w) w then inr (PStr (abspath p w))
        else inl (TaskOptionsError (MappingNotFound (abspath p w)))
    | _ => inl TypeError
    end
  else inr PNone.

(** [self] as [_init_options] builds it. *)
Definition make_self (opts : options) (mapping_file : pyval) (n b : Z) (g : Task)
    : GenerateAndLoadData Task :=
  {| self_options := opts;
     mapping_file := mapping_file;
     database_url := dict_get opts "database_url";
     num_records := n;
     batch_size := b;
     class_path := dict_get opts "data_generation_task";
     data_generation_task := g;
     debug_dir := dict_get opts "debug_dir" |}.

End Validation.

(** ** What a run asks of its collaborators *)

(** The ([num_records], [current_batch_number]) of each invocation of the
    generation step, in order. *)
Definition generation_requests (t : list event) : list (option pyval * option pyval) :=
  omap (fun ev => match ev with
                  | EvDatagen o _ => Some (o !! "num_records", o !! "current_batch_number")
                  | _ => None
                  end) t.

(** How many times the loading step was invoked. *)
Definition loading_calls (t : list event) : nat :=
  length (List.filter is_dataload t).

(** What a batch (size, index) is expected to ask. *)
Definition request_of (batch : Z * Z) : option pyval * option pyval :=
  (Some (PInt batch.1), Some (PInt batch.2)).


(** ** An in-memory implementation of the collaborators *)

Module Sim.

(** Files by path, databases by locator (table names in reflection
    order), a counter for fresh temporary names, and whether the directory
    for temporary files is there. *)
Record world := {
  files : gset string;
  stores : gmap string (list string);
  fresh : nat;
  tmp_root : bool
}.

(** Three generator classes: one fills a [contacts] table; one does the
    same but raises in the batch of index 1; one does the same and writes
    a mapping of its own and another count to the options it was given. *)
Inductive generator := ContactsFactory | FlakyFactory | WritingFactory.

Definition tables_of (locator : string) (w : world) : list string :=
  default [] (stores w !! locator).

Definition set_tables (locator : string) (ts : list string) (w : world) : world :=
  {| files := files w; stores := <[locator := ts]> (stores w); fresh := fresh w;
     tmp_root := tmp_root w |}.

Definition add_table (name : string) (ts : list string) : list string :=
  if bool_decide (name ∈ ts) then ts else ts ++ [name].

Fixpoint tag (n : nat) : string :=
  match n with
  | O => ""
  | S k => String "a" (tag k)
  end.

Definition new_file (prefix suffix : string) (w : world) : (exn + string) * world :=
  if tmp_root w then
    let name := prefix +:+ tag (fresh w) +:+ suffix in
    (inr name,
     {| files := {[name]} ∪ files w; stores := stores w; fresh := S (fresh w);
        tmp_root := true |})
  else (inl (OtherError "FileNotFoundError"), w).

Definition remove_file (name : string) (w : world) : world :=
  {| files := files w ∖ {[name]}; stores := stores w; fresh := fresh w;
     tmp_root := tmp_root w |}.

Definition sim_import (class_path : pyval) (w : world) : (exn + generator) * world :=
  match class_path with
  | PStr "factories.ContactsFactory" => (inr ContactsFactory, w)
  | PStr "factories.FlakyFactory" => (inr FlakyFactory, w)
  | PStr "factories.WritingFactory" => (inr WritingFactory, w)
  | PStr _ => (inl (OtherError "ImportError"), w)
  | _ => (inl TypeError, w)
  end.

Definition sim_create_engine (url : pyval) (w : world) : (exn + string) * world :=
  match url with
  | PStr u => (inr u, w)
  | _ => (inl (OtherError "ArgumentError"), w)
  end.

Definition sim_drop_all (engine : string) (ts : list string) (w : world)
    : (exn + unit) * world :=
  (inr tt,
   set_tables engine (filter (fun t => t ∉ ts) (tables_of engine w)) w).

Definition fill_contacts (opts left : options) (w : world) : (exn + options) * world :=
  match dict_get opts "database_url" with
  | PStr u => (inr left, set_tables u (add_table "contacts" (tables_of u w)) w)
  | _ => (inl TypeError, w)
  end.

Definition sim_generate (g : generator) (opts : options) (w : world)
    : (exn + options) * world :=
  match g with
  | ContactsFactory => fill_contacts opts opts w
  | FlakyFactory =>
      match dict_get opts "current_batch_number" with
      | PInt 1 => (inl (OtherError "GeneratorFailure"), w)
      | _ => fill_contacts opts opts w
      end
  | WritingFactory =>
      fill_contacts opts
        (<["num_records" := PInt 999]>
           (<["mapping" := PStr "/repo/from_generator.yml"]> opts)) w
  end.

(** The loader needs an existing mapping file and a [contacts] table; it
    records the loaded ids in [contacts_sf_ids]. *)
Definition sim_load (opts : options) (w : world) : (exn + unit) * world :=
  match dict_get opts "mapping", dict_get opts "database_url" with
  | PStr m, PStr u =>
      if bool_decide (m ∈ files w) && bool_decide ("contacts" ∈ tables_of u w)
      then (inr tt, set_tables u (add_table "contacts_sf_ids" (tables_of u w)) w)
      else (inl (OtherError "LoadFailure"), w)
  | _, _ => (inl TypeError, w)
  end.

#[export] Instance sim : Collaborators world string generator := {|
  path_exists p w := bool_decide (p ∈ files w);
  abspath p w := if String.prefix "/" p then p else "/repo/" +:+ p;
  path_join a b := a +:+ "/" +:+ b;
  import_global := sim_import;
  create_engine := sim_create_engine;
  reflect engine w := (inr (tables_of engine w), w);
  drop_all := sim_drop_all;
  mkdtemp := new_file "/tmp/tmp" "";
  rmtree := remove_file;
  mkstemp := new_file "/tmp/tmp";
  unlink := remove_file;
  run_generator := sim_generate;
  run_load_data := sim_load
|}.

Definition empty_world : world :=
  {| files := ∅; stores := ∅; fresh := 0; tmp_root := true |}.

(** A world without a directory for temporary files. *)
Definition world_no_tmp : world :=
  {| files := ∅; stores := ∅; fresh := 0; tmp_root := false |}.

(** A world that holds the mapping file [WritingFactory] names. *)
Definition world_generator_mapping : world :=
  {| files := {[ "/repo/from_generator.yml" ]}; stores := ∅; fresh := 0;
     tmp_root := true |}.

(** A world whose database [sqlite:///keep.db] holds only an id-mapping
    table, and one that also holds an object table. *)
Definition world_ids_only : world :=
  {| files := ∅;
     stores := {[ "sqlite:///keep.db" := ["contacts_sf_ids"] ]};
     fresh := 0; tmp_root := true |}.

Definition world_used : world :=
  {| files := ∅;
     stores := {[ "sqlite:///keep.db" := ["contacts"; "contacts_sf_ids"] ]};
     fresh := 0; tmp_root := true |}.

Definition base_options (n : Z) : options :=
  <["num_records" := PInt n]>
  (<["data_generation_task" := PStr "factories.ContactsFactory"]> ∅).

(** Ten records in batches of four, into the transient store. *)
Definition options_10_4 : options := <["batch_size" := PInt 4]> (base_options 10).

Definition task_10_4 : GenerateAndLoadData generator :=
  make_self options_10_4 PNone 10 4 ContactsFactory.

Definition flaky_10_4 : GenerateAndLoadData generator :=
  make_self options_10_4 PNone 10 4 FlakyFactory.

Definition writing_10_4 : GenerateAndLoadData generator :=
  make_self options_10_4 PNone 10 4 WritingFactory.



Definition options_neg_5 : options := <["batch_size" := PInt 5]> (base_options (-3)).



(** Ten records into the caller's database. *)
Definition options_keep : options :=
  <["database_url" := PStr "sqlite:///keep.db"]> (base_options 10).

Definition options_keep_confirmed : options :=
  <["replace_database" := PBool true]> options_keep.

Definition task_keep : GenerateAndLoadData generator :=
  make_self options_keep_confirmed PNone 10 10 ContactsFactory.

(** A mapping file that exists, and option bags that name it or another. *)
Definition world_with_mapping : world :=
  {| files := {[ "/repo/mapping.yml" ]}; stores := ∅; fresh := 0; tmp_root := true |}.

Definition options_mapping : options :=
  <["mapping" := PStr "mapping.yml"]> (base_options 10).

Definition options_mapping_only : options :=
  <["mapping" := PStr "missing.yml"]> ∅.

Definition task_mapping : GenerateAndLoadData generator :=
  make_self options_mapping (PStr "/repo/mapping.yml") 10 10 ContactsFactory.

(** A generator class that cannot be imported; a debug directory that is
    not a path. *)
Definition options_no_class : options :=
  <["data_generation_task" := PStr "factories.Nope"]> (base_options 10).

Definition options_debug_7 : options := <["debug_dir" := PInt 7]> options_10_4.

Definition task_debug_7 : GenerateAndLoadData generator :=
  make_self options_debug_7 PNone 10 4 ContactsFactory.

Definition metadata_used : MetaData string :=
  {| md_bind := "sqlite:///keep.db"; md_tables := ["contacts"; "contacts_sf_ids"] |}.



End Sim.

Example int_of_string_ex1 : int_of_string " 1_000 " = Some 1000.
Proof. reflexivity. Qed.
Example int_of_string_ex2 : int_of_string "-12" = Some (-12).
Proof. reflexivity. Qed.
Example int_of_string_ex3 : int_of_string "1__0" = None.
Proof. reflexivity. Qed.
Example int_of_string_ex4 : int_of_string "ten" = None.
Proof. reflexivity. Qed.
Example endswith_ex1 : endswith "accounts_sf_ids" "sf_ids" = true.
Proof. reflexivity. Qed.
Example endswith_ex2 : endswith "sf_ids_old" "sf_ids" = false.
Proof. reflexivity. Qed.
Example endswith_ex3 : endswith "ids" "sf_ids" = false.
Proof. reflexivity. Qed.

Example truthy_empty_string : truthy (PStr "") = false.
Proof. reflexivity. Qed.
Example truthy_false_string : truthy (PStr "False") = true.
Proof. reflexivity. Qed.
Example generate_batches_10_4 : generate_batches 10 4 = [(4, 0); (4, 1); (2, 2)].
Proof. reflexivity. Qed.
Example generate_batches_15_5 : generate_batches 15 5 = [(5, 0); (5, 1); (5, 2)].
Proof. reflexivity. Qed.
Example generate_batches_0_5 : generate_batches 0 5 = [].
Proof. reflexivity. Qed.

(** ** The partition *)

Lemma sum_sizes_replicate (n : nat) (B : Z) :
  sum_sizes (replicate n B) = Z.of_nat n * B.
Proof.
  induction n as [|n IH]; [reflexivity|].
  cbn [replicate sum_sizes foldr]. fold (sum_sizes (replicate n B)). lia.
Qed.

Lemma sum_sizes_app (l k : list Z) :
  sum_sizes (l ++ k) = sum_sizes l + sum_sizes k.
Proof.
  unfold sum_sizes. induction l as [|x l IH]; cbn; [reflexivity|].
  rewrite IH. lia.
Qed.

Lemma batch_sizes_sum (N B : Z) :
  0 <= N -> 0 < B -> sum_sizes (batch_sizes N B) = N.
Proof.
  intros HN HB. unfold batch_sizes.
  rewrite sum_sizes_app, sum_sizes_replicate.
  assert (0 <= N / B) by (apply Z.div_pos; lia).
  rewrite Z2Nat.id by lia.
  pose proof (Z.div_mod N B ltac:(lia)) as Hdm.
  case_decide; cbn; lia.
Qed.

Lemma batch_sizes_bounded (N B : Z) :
  0 < B -> Forall (fun s => 0 < s <= B) (batch_sizes N B).
Proof.
  intros HB. unfold batch_sizes. apply Forall_app. split.
  - apply Forall_replicate. lia.
  - pose proof (Z.mod_pos_bound N B HB).
    case_decide; constructor; [lia | constructor].
Qed.

Lemma batch_sizes_full (N B : Z) (i : nat) (s : Z) :
  batch_sizes N B !! i = Some s ->
  (S i < length (batch_sizes N B))%nat ->
  s = B.
Proof.
  unfold batch_sizes. intros Hi Hlen.
  rewrite length_app, length_replicate in Hlen.
  assert (i < Z.to_nat (N / B))%nat as Hlt.
  { case_decide; cbn in Hlen; lia. }
  rewrite lookup_app_l in Hi by (rewrite length_replicate; lia).
  apply lookup_replicate in Hi. tauto.
Qed.

Lemma generate_batches_sizes (N B : Z) :
  (generate_batches N B).*1 = batch_sizes N B.
Proof.
  unfold generate_batches. apply fst_zip. rewrite length_seqZ. lia.
Qed.

Lemma generate_batches_indices (N B : Z) :
  (generate_batches N B).*2 = seqZ 0 (Z.of_nat (length (generate_batches N B))).
Proof.
  unfold generate_batches.
  rewrite length_zip_with, length_seqZ.
  rewrite Nat2Z.id, Nat.min_id.
  apply snd_zip. rewrite length_seqZ. lia.
Qed.

Lemma generate_batches_zero (B : Z) : generate_batches 0 B = [].
Proof.
  unfold generate_batches, batch_sizes.
  rewrite Zdiv_0_l, Zmod_0_l. reflexivity.
Qed.

(** ** Running computations *)

Section Running.
Context {World : Type}.

#[local] Abbreviation M := (M World).

Lemma bind_ok {A B} (m : M A) (f : A -> M B) w a w1 t1 :
  m w = (inr a, w1, t1) ->
  bind m f w = ((f a w1).1.1, (f a w1).1.2, t1 ++ (f a w1).2).
Proof. intros H. unfold bind. rewrite H. destruct (f a w1) as [[r w2] t2]. reflexivity. Qed.

Lemma bind_raise {A B} (m : M A) (f : A -> M B) w e w1 t1 :
  m w = (inl e, w1, t1) -> bind m f w = (inl e, w1, t1).
Proof. intros H. unfold bind. rewrite H. reflexivity. Qed.

Lemma bind_cases {A B} (m : M A) (f : A -> M B) w :
  (exists e w1 t1, m w = (inl e, w1, t1) /\ bind m f w = (inl e, w1, t1)) \/
  (exists a w1 t1, m w = (inr a, w1, t1) /\
     bind m f w = ((f a w1).1.1, (f a w1).1.2, t1 ++ (f a w1).2)).
Proof.
  destruct (m w) as [[[e|a] w1] t1] eqn:Hm.
  - left. exists e, w1, t1. split; [reflexivity|]. by apply bind_raise.
  - right. exists a, w1, t1. split; [reflexivity|]. by apply bind_ok.
Qed.

Lemma emits_ret {A} P (a : A) : emits P (ret a : M A).
Proof. intros w. constructor. Qed.

Lemma emits_raise {A} P e : emits P (raise e : M A).
Proof. intros w. constructor. Qed.

Lemma emits_bind {A B} P (m : M A) (f : A -> M B) :
  emits P m -> (forall a, emits P (f a)) -> emits P (bind m f).
Proof.
  intros Hm Hf w. specialize (Hm w).
  destruct (bind_cases m f w) as [(e & w1 & t1 & Hw & ->)|(a & w1 & t1 & Hw & ->)];
    rewrite Hw in Hm; cbn in *; [assumption|].
  apply Forall_app. split; [assumption | apply Hf].
Qed.

Lemma emits_call {A} (P : event -> Prop) (op : World -> (exn + A) * World) ev :
  (forall r, P (ev r)) -> emits P (call op ev).
Proof. intros H w. unfold call. destruct (op w) as [r w1]. cbn. by repeat constructor. Qed.

Lemma emits_quiet {A} P (op : World -> (exn + A) * World) : emits P (quiet op).
Proof. intros w. unfold quiet. destruct (op w). constructor. Qed.

Lemma emits_read {A} P (f : World -> A) : emits P (read f : M A).
Proof. intros w. constructor. Qed.

Lemma emits_lift_result {A} P (r : exn + A) : emits P (lift_result r : M A).
Proof. destruct r; [apply emits_raise | apply emits_ret]. Qed.

Lemma emits_emit (P : event -> Prop) ev : P ev -> emits P (emit ev : M unit).
Proof. intros H w. cbn. by repeat constructor. Qed.

Lemma emits_for_each {A} P (l : list A) (body : A -> M unit) :
  (forall x, emits P (body x)) -> emits P (for_each l body).
Proof.
  intros H. induction l as [|x l IH]; cbn [for_each].
  - apply emits_ret.
  - apply emits_bind; [apply H | intros _; apply IH].
Qed.

Lemma emits_weaken {A} (P Q : event -> Prop) (m : M A) :
  (forall ev, P ev -> Q ev) -> emits P m -> emits Q m.
Proof. intros HPQ Hm w. eapply Forall_impl; [apply Hm | exact HPQ]. Qed.

(** The loop stops at the first iteration that raises. *)
Lemma for_each_nil {A} (body : A -> M unit) w :
  for_each [] body w = (inr tt, w, []).
Proof. reflexivity. Qed.

Lemma for_each_cons_raise {A} (body : A -> M unit) x rest w e w1 t1 :
  body x w = (inl e, w1, t1) ->
  for_each (x :: rest) body w = (inl e, w1, t1).
Proof. intros H. cbn [for_each]. by apply bind_raise. Qed.

Lemma for_each_cons_ok {A} (body : A -> M unit) x rest w u w1 t1 :
  body x w = (inr u, w1, t1) ->
  for_each (x :: rest) body w =
    ((for_each rest body w1).1.1, (for_each rest body w1).1.2,
     t1 ++ (for_each rest body w1).2).
Proof. intros H. cbn [for_each]. by rewrite (bind_ok _ _ _ _ _ _ H). Qed.

Lemma infos_of_app t1 t2 : infos_of (t1 ++ t2) = infos_of t1 ++ infos_of t2.
Proof. unfold infos_of. apply omap_app. Qed.

Lemma infos_of_none t :
  Forall (fun ev => is_info ev = false) t -> infos_of t = [].
Proof.
  induction 1 as [|ev t Hev _ IH]; [reflexivity|].
  unfold infos_of in *. cbn. destruct ev; try discriminate; exact IH.
Qed.

(** A loop whose body announces its batch once: the announcements are
    the batches gone through, in order. *)
Lemma for_each_infos (l : list (Z * Z)) (body : Z * Z -> M unit) w :
  (forall x w, infos_of (body x w).2 = [x]) ->
  infos_of (for_each l body w).2 `prefix_of` l /\
  (forall u, (for_each l body w).1.1 = inr u -> infos_of (for_each l body w).2 = l).
Proof.
  intros Hbody. revert w. induction l as [|x l IH]; intros w.
  - cbn. split; [apply prefix_nil | reflexivity].
  - specialize (Hbody x w).
    destruct (body x w) as [[[e|u] w1] t1] eqn:Hx.
    + rewrite (for_each_cons_raise _ _ _ _ _ _ _ Hx). cbn [fst snd] in *. rewrite Hbody.
      split; [apply prefix_cons, prefix_nil | discriminate].
    + rewrite (for_each_cons_ok _ _ _ _ _ _ _ Hx). cbn [fst snd] in *.
      rewrite infos_of_app, Hbody. cbn [app].
      destruct (IH w1) as [Hpre Hall]. split.
      * by apply prefix_cons.
      * intros u' Hu. f_equal. by apply (Hall u').
Qed.

End Running.

(** ** The task's own record of events *)

Section Properties.
Context {World Engine Task : Type} `{!Collaborators World Engine Task}.

#[local] Abbreviation M := (M World).

Lemma tables_to_drop_spec (tables : list string) (t : string) :
  t ∈ tables_to_drop tables <-> t ∈ tables /\ endswith t "sf_ids" = false.
Proof.
  unfold tables_to_drop. rewrite list_elem_of_filter.
  rewrite negb_true_iff. tauto.
Qed.

Lemma tables_to_drop_no_ids (tables : list string) :
  Forall (fun t => endswith t "sf_ids" = false) (tables_to_drop tables).
Proof. apply Forall_forall. intros t Ht. by apply tables_to_drop_spec in Ht as [_ ?]. Qed.

Lemma emits_TemporaryDirectory {A} (P : event -> Prop) (body : string -> M A) :
  (forall d, P (EvTempDir d)) -> (forall d, P (EvTempDirCleanup d)) ->
  (forall d, emits P (body d)) ->
  emits P (TemporaryDirectory body).
Proof.
  intros Ho Hc Hb w. unfold TemporaryDirectory.
  destruct (mkdtemp w) as [[e|d] w1]; [constructor|]. specialize (Hb d w1).
  destruct (body d w1) as [[r w2] t]. cbn in *.
  constructor; [apply Ho|]. apply Forall_app. split; [assumption|].
  by repeat constructor.
Qed.

Lemma emits_NamedTemporaryFile {A} (P : event -> Prop) suffix (body : string -> M A) :
  (forall n, P (EvTempFile n)) -> (forall n, P (EvTempFileClose n)) ->
  (forall n, emits P (body n)) ->
  emits P (NamedTemporaryFile suffix body).
Proof.
  intros Ho Hc Hb w. unfold NamedTemporaryFile.
  destruct (mkstemp suffix w) as [[e|n] w1]; [constructor|]. specialize (Hb n w1).
  destruct (body n w1) as [[r w2] t]. cbn in *.
  constructor; [apply Ho|]. apply Forall_app. split; [assumption|].
  by repeat constructor.
Qed.

Lemma emits_setup_engine (P : event -> Prop) url :
  (forall u r, P (EvCreateEngine u r)) -> (forall r, P (EvReflect r)) ->
  emits P (_setup_engine url).
Proof.
  intros Hc Hr. unfold _setup_engine.
  apply emits_bind; [by apply emits_call|]. intros engine.
  apply emits_bind; [by apply emits_call|]. intros tables.
  apply emits_ret.
Qed.

Lemma emits_cleanup_object_tables (P : event -> Prop) (metadata : MetaData Engine) :
  (forall ts r, Forall (fun t => endswith t "sf_ids" = false) ts -> P (EvDropAll ts r)) ->
  emits P (_cleanup_object_tables metadata).
Proof.
  intros Hd. unfold _cleanup_object_tables.
  pose proof (tables_to_drop_no_ids (md_tables metadata)) as Hno.
  destruct (tables_to_drop (md_tables metadata)) as [|t ts]; [apply emits_ret|].
  apply emits_call. intros r. by apply Hd.
Qed.

(** What a batch can record. *)
Lemma emits_generate_batch (P : event -> Prop) (self : GenerateAndLoadData Task)
    url tempdir mapping size index :
  (forall u r, P (EvCreateEngine u r)) -> (forall r, P (EvReflect r)) ->
  (forall ts r, Forall (fun t => endswith t "sf_ids" = false) ts -> P (EvDropAll ts r)) ->
  (forall n, P (EvTempFile n)) -> (forall n, P (EvTempFileClose n)) ->
  (forall o r, P (EvDatagen o r)) -> (forall o r, P (EvDataload o r)) ->
  emits P (_generate_batch self url tempdir mapping size index).
Proof.
  intros Hc Hr Hd Hto Htc Hg Hl. unfold _generate_batch.
  apply emits_bind.
  { destruct (negb (truthy url)); [|apply emits_ret].
    destruct tempdir; (apply emits_raise || apply emits_ret). }
  intros url'. apply emits_bind; [by apply emits_setup_engine|]. intros metadata.
  apply emits_bind; [by apply emits_cleanup_object_tables|]. intros _.
  apply emits_NamedTemporaryFile; [assumption..|]. intros n.
  apply emits_bind; [by apply emits_call|]. intros left.
  by apply emits_call.
Qed.

(** What a run can record. *)
Lemma emits_run_task (P : event -> Prop) (self : GenerateAndLoadData Task) :
  (forall d, P (EvTempDir d)) -> (forall d, P (EvTempDirCleanup d)) ->
  (forall s i n, P (EvInfo s i n)) ->
  (forall u r, P (EvCreateEngine u r)) -> (forall r, P (EvReflect r)) ->
  (forall ts r, Forall (fun t => endswith t "sf_ids" = false) ts -> P (EvDropAll ts r)) ->
  (forall n, P (EvTempFile n)) -> (forall n, P (EvTempFileClose n)) ->
  (forall o r, P (EvDatagen o r)) -> (forall o r, P (EvDataload o r)) ->
  emits P (_run_task self).
Proof.
  intros Hdo Hdc Hi Hc Hr Hd Hto Htc Hg Hl. unfold _run_task.
  apply emits_TemporaryDirectory; [assumption..|]. intros d.
  apply emits_for_each. intros [s i]. unfold _run_task_body.
  apply emits_bind; [by apply emits_emit|]. intros _.
  by apply emits_generate_batch.
Qed.

(** Validation only looks at the schema. *)
Lemma emits_init_options (P : event -> Prop) (opts : options) :
  (forall u r, P (EvCreateEngine u r)) -> (forall r, P (EvReflect r)) ->
  emits P (_init_options opts).
Proof.
  intros Hc Hr. unfold _init_options.
  apply emits_bind.
  { destruct (truthy _); [|apply emits_ret].
    destruct (dict_get opts "mapping"); try apply emits_raise.
    apply emits_bind; [apply emits_read|]. intros path.
    apply emits_bind; [apply emits_read|]. intros [|]; [apply emits_ret|apply emits_raise]. }
  intros mf. apply emits_bind.
  { destruct (opts !! "num_records"); [apply emits_lift_result | apply emits_raise]. }
  intros n. apply emits_bind; [apply emits_lift_result|]. intros b.
  destruct (b <=? 0); [apply emits_raise|].
  apply emits_bind; [apply emits_quiet|]. intros g.
  destruct (truthy _); [|apply emits_ret].
  apply emits_bind; [by apply emits_setup_engine|]. intros md.
  destruct (_ && _)%bool; [apply emits_raise | apply emits_ret].
Qed.

Lemma run_task_unfold (self : GenerateAndLoadData Task) w d w0 :
  mkdtemp w = (inr d, w0) ->
  let loop :=
    for_each (generate_batches (num_records self) (batch_size self))
             (_run_task_body self d) w0 in
  _run_task self w =
    (loop.1.1, rmtree d loop.1.2, EvTempDir d :: loop.2 ++ [EvTempDirCleanup d]).
Proof.
  intros Hd. cbv zeta. unfold _run_task, TemporaryDirectory. rewrite Hd.
  destruct (for_each _ _ w0) as [[r w2] t]. reflexivity.
Qed.

Lemma run_task_no_directory (self : GenerateAndLoadData Task) w e w0 :
  mkdtemp w = (inl e, w0) -> _run_task self w = (inl e, w0, []).
Proof. intros Hd. unfold _run_task, TemporaryDirectory. by rewrite Hd. Qed.

Lemma run_task_body_unfold (self : GenerateAndLoadData Task) d s i w :
  let batch :=
    _generate_batch self (database_url self) (py_or (debug_dir self) (PStr d))
                    (mapping_file self) s i w in
  _run_task_body self d (s, i) w =
    (batch.1.1, batch.1.2, EvInfo s i (num_records self) :: batch.2).
Proof.
  cbv zeta. unfold _run_task_body.
  by rewrite (bind_ok _ _ w tt w [EvInfo s i (num_records self)]).
Qed.

Lemma run_task_body_infos (self : GenerateAndLoadData Task) d (x : Z * Z) w :
  infos_of (_run_task_body self d x w).2 = [x].
Proof.
  destruct x as [s i]. rewrite run_task_body_unfold. cbn [fst snd].
  change (EvInfo s i (num_records self) :: ?t)
    with ([EvInfo s i (num_records self)] ++ t).
  rewrite infos_of_app.
  rewrite (infos_of_none (_generate_batch _ _ _ _ _ _ _).2); [reflexivity|].
  by apply emits_generate_batch.
Qed.

(** C1. For every total [N >= 0] and batch size [B > 0] the batches the
    loop of [_run_task] goes through have sizes that sum to [N], each at
    most [B], all equal to [B] except possibly the last, with indices
    0, 1, 2, ...; the batches a run announces are, in order, a prefix of
    that partition and the whole of it when the run completes; and when
    [N = 0] the loop body never runs: the run only creates and removes
    its temporary directory, or fails to create it. *)
Theorem batch_loop_partition (N B : Z) :
  0 <= N -> 0 < B ->
  let batches := generate_batches N B in
  sum_sizes batches.*1 = N /\
  Forall (fun s => s <= B) batches.*1 /\
  (forall (i : nat) (s : Z),
      batches.*1 !! i = Some s -> (S i < length batches)%nat -> s = B) /\
  batches.*2 = seqZ 0 (Z.of_nat (length batches)) /\
  (N = 0 -> batches = []) /\
  forall (self : GenerateAndLoadData Task) (w : World),
    num_records self = N -> batch_size self = B ->
    infos_of (_run_task self w).2 `prefix_of` batches /\
    (forall u, (_run_task self w).1.1 = inr u ->
               infos_of (_run_task self w).2 = batches) /\
    (N = 0 ->
     match mkdtemp w with
     | (inr d, w0) =>
         _run_task self w
           = (inr tt, rmtree d w0, [EvTempDir d; EvTempDirCleanup d])
     | (inl e, w0) => _run_task self w = (inl e, w0, [])
     end).
Proof.
  intros HN HB batches. subst batches.
  split; [rewrite generate_batches_sizes; by apply batch_sizes_sum|].
  split.
  { rewrite generate_batches_sizes.
    eapply Forall_impl; [by apply batch_sizes_bounded|]. cbn. lia. }
  split.
  { intros i s Hi Hlen. rewrite generate_batches_sizes in Hi.
    apply (batch_sizes_full N B i s Hi).
    by rewrite <- generate_batches_sizes, length_fmap. }
  split; [apply generate_batches_indices|].
  split; [intros ->; apply generate_batches_zero|].
  intros self w <- <-.
  destruct (mkdtemp w) as [[e|d] w0] eqn:Hd.
  { rewrite (run_task_no_directory _ _ _ _ Hd). cbn [fst snd].
    split; [apply prefix_nil|]. split; [discriminate | reflexivity]. }
  rewrite (run_task_unfold _ _ _ _ Hd). cbv zeta. cbn [fst snd].
  assert (forall t d, infos_of (EvTempDir d :: t ++ [EvTempDirCleanup d]) = infos_of t)
    as Hwrap.
  { intros t d'. change (EvTempDir d' :: t ++ [EvTempDirCleanup d'])
      with ([EvTempDir d'] ++ t ++ [EvTempDirCleanup d']).
    rewrite !infos_of_app. cbn. by rewrite app_nil_r. }
  rewrite Hwrap.
  match goal with
  | |- context [for_each ?l ?body ?w1] =>
      destruct (for_each_infos l body w1) as [Hpre Hall]
  end.
  { intros x w'. apply run_task_body_infos. }
  split; [exact Hpre|]. split; [exact Hall|].
  intros H0. rewrite H0, generate_batches_zero. reflexivity.
Qed.

(** ** One batch, case by case *)

Lemma generate_batch_run (self : GenerateAndLoadData Task)
    url tempdir mapping size index w :
  batch_run self url tempdir mapping size index w
    (_generate_batch self url tempdir mapping size index w).
Proof.
  unfold _generate_batch, bind at 1.
  destruct (staging_locator url tempdir) as [e0|locator] eqn:Hloc.
  { pose proof Hloc as Hloc'. unfold staging_locator in Hloc'.
    destruct (truthy url); [discriminate|]. cbn [negb].
    destruct tempdir; try discriminate; injection Hloc' as <-;
      by apply run_no_locator. }
  assert ((if negb (truthy url)
           then match tempdir with
                | PStr d => ret (sqlite_url d)
                | _ => raise TypeError
                end
           else ret url) w = (inr locator, w, []) :> (exn + pyval) * World * list event)
    as ->.
  { unfold staging_locator in Hloc.
    destruct (truthy url); cbn [negb]; [by injection Hloc as <-|].
    destruct tempdir; try discriminate. by injection Hloc as <-. }
  unfold _setup_engine, bind, call.
  destruct (create_engine locator w) as [[e|engine] w1] eqn:Hce.
  { by eapply run_engine_raised. }
  destruct (reflect engine w1) as [[e|tables] w2] eqn:Hre.
  { by eapply run_reflect_raised. }
  cbn [ret app]. unfold _cleanup_object_tables. cbn [md_tables md_bind].
  assert (forall w3 (drops : list event),
             cleanup_done engine tables w2 w3 ->
             drops = cleanup_events tables ->
             batch_run self url tempdir mapping size index w
               (let '(r, w', t) :=
                  NamedTemporaryFile "_mapping.yml"
                    (fun generated_mapping_file w0 =>
                       match
                         _datagen self
                           (<["generate_mapping_file" := PStr generated_mapping_file]>
                              (make_subtask_options (self_options self) mapping locator
                                 tempdir size index)) w0
                       with
                       | (inl e, w1, t1) => (inl e, w1, t1)
                       | (inr a, w1, t1) =>
                           let '(r, w2, t2) :=
                             _dataload
                               (if negb (truthy (dict_get a "mapping"))
                                then <["mapping" := PStr generated_mapping_file]> a
                                else a) w1 in
                           (r, w2, t1 ++ t2)
                       end) w3 in
                (r, w', [EvCreateEngine locator None; EvReflect (inr tables)]
                        ++ drops ++ t))) as Htail.
  { intros w3 drops Hcl ->. unfold NamedTemporaryFile.
    destruct (mkstemp "_mapping.yml" w3) as [[e|name] w4] eqn:Hmk.
    { rewrite app_nil_r. by eapply run_no_scratch_file. }
    unfold _datagen, _dataload, call.
    destruct (run_generator _ _ w4) as [[e|left] w5] eqn:Hgen.
    - by eapply run_generation_raised.
    - destruct (run_load_data _ w5) as [r w6] eqn:Hload.
      pose proof (run_loading self url tempdir mapping size index w
                    locator engine w1 tables w2 w3 name w4 left w5 r w6
                    Hloc Hce Hre Hcl Hmk Hgen) as H.
      unfold loading_options in H.
      destruct (truthy (dict_get left "mapping")); cbn [negb] in *; by apply H. }
  destruct (tables_to_drop tables) as [|t ts] eqn:Httd.
  - cbn [ret].
    specialize (Htail w2 [] ltac:(unfold cleanup_done; by rewrite Httd)
                      ltac:(unfold cleanup_events; by rewrite Httd)).
    cbn [app] in Htail.
    destruct (NamedTemporaryFile _ _ w2) as [[r w'] t']. exact Htail.
  - unfold call.
    destruct (drop_all engine (t :: ts) w2) as [[e|[]] w3] eqn:Hdrop.
    { cbn [raised_of app].
      pose proof (run_drop_raised self url tempdir mapping size index w
                    locator engine w1 tables w2 e w3 Hloc Hce Hre) as H.
      rewrite Httd in H. by apply H. }
    specialize (Htail w3 [EvDropAll (t :: ts) None]
                      ltac:(unfold cleanup_done; by rewrite Httd)
                      ltac:(unfold cleanup_events; by rewrite Httd)).
    cbn [raised_of app] in *.
    destruct (NamedTemporaryFile _ _ w3) as [[r w'] t']. exact Htail.
Qed.

(** ** Where an event can sit in a record *)

Lemma split_at_only {A} (P : A -> bool) (l1 : list A) x l2 pre y post :
  Forall (fun a => P a = false) l1 ->
  Forall (fun a => P a = false) l2 ->
  P y = true ->
  l1 ++ x :: l2 = pre ++ y :: post ->
  pre = l1 /\ y = x /\ post = l2.
Proof.
  intros H1 H2 Hy. revert pre. induction H1 as [|a l1 Ha _ IH]; intros pre Heq.
  - destruct pre as [|b pre]; cbn in Heq.
    + injection Heq as -> ->. done.
    + injection Heq as -> ->.
      apply Forall_app in H2 as [_ H2]. apply Forall_cons in H2 as [H2 _]. congruence.
  - destruct pre as [|b pre]; cbn in Heq.
    + injection Heq as -> _. congruence.
    + injection Heq as -> Heq. destruct (IH _ Heq) as (-> & -> & ->). done.
Qed.

Lemma not_in_record {A} (P : A -> bool) (l pre : list A) y post :
  Forall (fun a => P a = false) l -> P y = true -> l <> pre ++ y :: post.
Proof.
  intros Hl Hy ->. apply Forall_app in Hl as [_ Hl].
  apply Forall_cons in Hl as [Hl _]. congruence.
Qed.

Lemma regroup {A} (a b : list A) c x l2 :
  a ++ b ++ c :: x :: l2 = (a ++ b ++ [c]) ++ x :: l2.
Proof. by rewrite <- !app_assoc. Qed.


Lemma cleanup_events_kind (P : event -> bool) tables :
  (forall ts, P (EvDropAll ts None) = false) ->
  Forall (fun ev => P ev = false) (cleanup_events tables).
Proof.
  intros H. unfold cleanup_events.
  destruct (tables_to_drop tables); by repeat constructor.
Qed.

Lemma cleanup_events_drop tables t :
  t ∈ tables -> endswith t "sf_ids" = false ->
  EvDropAll (tables_to_drop tables) None ∈ cleanup_events tables.
Proof.
  intros Ht Hs. assert (t ∈ tables_to_drop tables) as Hin by by apply tables_to_drop_spec.
  unfold cleanup_events. destruct (tables_to_drop tables) eqn:E.
  - by apply not_elem_of_nil in Hin.
  - apply list_elem_of_here.
Qed.

Lemma generation_options_lookup opts mapping locator tempdir size index name :
  let o := generation_options opts mapping locator tempdir size index name in
  o !! "mapping" = Some mapping /\
  o !! "generate_mapping_file" = Some (PStr name) /\
  o !! "reset_oids" = Some (PBool false) /\
  o !! "database_url" = Some locator /\
  o !! "num_records" = Some (PInt size) /\
  o !! "current_batch_number" = Some (PInt index) /\
  o !! "working_directory" = Some tempdir /\
  forall k,
    k ∉ ["mapping"; "generate_mapping_file"; "reset_oids"; "database_url";
         "num_records"; "current_batch_number"; "working_directory"] ->
    o !! k = opts !! k.
Proof.
  cbv zeta. unfold generation_options, make_subtask_options.
  repeat split; try (by simplify_map_eq).
  intros k Hk.
  rewrite !lookup_insert_ne; [reflexivity|..];
    intros <-; apply Hk; set_solver.
Qed.

(** C2. In every batch, a generation step that is invoked comes after
    the staging database (the one the step is pointed at) was reflected
    and [drop_all] returned for exactly its tables whose names do not end
    with "sf_ids", so that each such table has been dropped; this holds for
    any batch index and any world, a freshly created store included.  And
    nothing the task does from construction to the end of the run asks to
    drop a table whose name ends with "sf_ids". *)
Theorem object_tables_dropped_before_generation :
  (forall (self : GenerateAndLoadData Task) url tempdir mapping size index
          (w : World) pre o r post,
      (_generate_batch self url tempdir mapping size index w).2
        = pre ++ EvDatagen o r :: post ->
      exists tables name,
        pre = [EvCreateEngine (dict_get o "database_url") None;
               EvReflect (inr tables)]
              ++ cleanup_events tables ++ [EvTempFile name] /\
        forall t, t ∈ tables -> endswith t "sf_ids" = false ->
                  t ∈ tables_to_drop tables /\
                  EvDropAll (tables_to_drop tables) None ∈ pre) /\
  (forall opts : options,
      emits (World := World)
        (fun ev => forall ts r t,
             ev = EvDropAll ts r -> t ∈ ts -> endswith t "sf_ids" = false)
        (construct_and_call opts)).
Proof.
  split.
  - intros self url tempdir mapping size index w pre o r post Heq.
    destruct (generate_batch_run self url tempdir mapping size index w)
      as [e Hloc|locator e w1 Hloc Hce|locator engine w1 e w2 Hloc Hce Hre
         |locator engine w1 tables w2 e w3 Hloc Hce Hre Hne Hdrop
         |locator engine w1 tables w2 w3 e w4 Hloc Hce Hre Hcl Hmk
         |locator engine w1 tables w2 w3 name w4 e w5 Hloc Hce Hre Hcl Hmk Hgen
         |locator engine w1 tables w2 w3 name w4 left w5 r' w6
            Hloc Hce Hre Hcl Hmk Hgen Hld];
      cbn [snd] in Heq.
    1-4: exfalso; revert Heq; apply (not_in_record is_datagen);
         [by repeat constructor | reflexivity].
    1: exfalso; revert Heq; apply (not_in_record is_datagen);
       [apply Forall_app; split;
          [by repeat constructor | by apply cleanup_events_kind]
       | reflexivity].
    all: rewrite regroup in Heq;
      match type of Heq with
      | ?l1 ++ ?x :: ?l2 = _ =>
          destruct (split_at_only is_datagen l1 x l2 pre (EvDatagen o r) post)
            as (-> & Hx & ->);
            [ | by repeat constructor | reflexivity | exact Heq | ]
      end.
    1,3: apply Forall_app; split; [by repeat constructor|];
         apply Forall_app; split;
         [by apply cleanup_events_kind | by repeat constructor].
    all: injection Hx as -> _;
      exists tables, name;
      pose proof (generation_options_lookup (self_options self) mapping locator
                    tempdir size index name) as (_ & _ & _ & Hurl & _);
      cbv zeta in Hurl; unfold dict_get; rewrite Hurl; cbn [default];
      (split; [reflexivity|]);
      intros t Ht Hs; (split; [by apply tables_to_drop_spec|]);
      apply elem_of_app; right; apply elem_of_app; left;
      by apply (cleanup_events_drop tables t).
  - intros opts. unfold construct_and_call.
    apply emits_bind.
    + apply emits_init_options; intros; discriminate.
    + intros self. apply emits_run_task; try (intros; discriminate).
      intros ts r Hts ts' r' t [= <- <-] Ht.
      by eapply Forall_forall in Hts.
Qed.

Lemma cleanup_events_inv tables ev :
  ev ∈ cleanup_events tables -> ev = EvDropAll (tables_to_drop tables) None.
Proof.
  unfold cleanup_events. destruct (tables_to_drop tables).
  - intros H. by apply not_elem_of_nil in H.
  - intros H. by apply list_elem_of_singleton in H.
Qed.

Ltac in_record :=
  repeat match goal with
    | H : _ ∈ _ ++ _ |- _ => apply elem_of_app in H as [H|H]
    | H : _ ∈ _ :: _ |- _ => apply elem_of_cons in H as [H|H]
    | H : _ ∈ [] |- _ => by apply not_elem_of_nil in H
    | H : _ ∈ cleanup_events _ |- _ => apply cleanup_events_inv in H
    end;
  try discriminate.

Ltac batch_cases self url tempdir mapping size index w :=
  destruct (generate_batch_run self url tempdir mapping size index w)
    as [e Hloc|locator e w1 Hloc Hce|locator engine w1 e w2 Hloc Hce Hre
       |locator engine w1 tables w2 e w3 Hloc Hce Hre Hne Hdrop
       |locator engine w1 tables w2 w3 e w4 Hloc Hce Hre Hcl Hmk
       |locator engine w1 tables w2 w3 name w4 e w5 Hloc Hce Hre Hcl Hmk Hgen
       |locator engine w1 tables w2 w3 name w4 left w5 r' w6
          Hloc Hce Hre Hcl Hmk Hgen Hld].

(** C6. The option bag a batch of size [size] and index [index] hands to
    the generation step is the task's own option bag overridden at
    exactly seven keys: [mapping] (the mapping file the batch was given,
    [None] when none is configured), [generate_mapping_file] (the name of
    the batch's scratch file), [reset_oids] (False), [database_url] (the
    resolved locator), [num_records] ([size]), [current_batch_number]
    ([index]) and [working_directory] (the directory the batch was
    given); every other key reads as in the task's options. *)
Theorem generation_step_options (self : GenerateAndLoadData Task)
    url tempdir mapping size index (w : World) o r :
  EvDatagen o r ∈ (_generate_batch self url tempdir mapping size index w).2 ->
  exists locator name,
    staging_locator url tempdir = inr locator /\
    EvTempFile name ∈ (_generate_batch self url tempdir mapping size index w).2 /\
    o = <["generate_mapping_file" := PStr name]>
          (<["reset_oids" := PBool false]>
          (<["working_directory" := tempdir]>
          (<["current_batch_number" := PInt index]>
          (<["num_records" := PInt size]>
          (<["database_url" := locator]>
          (<["mapping" := mapping]> (self_options self))))))) /\
    o !! "mapping" = Some mapping /\
    o !! "generate_mapping_file" = Some (PStr name) /\
    o !! "reset_oids" = Some (PBool false) /\
    o !! "database_url" = Some locator /\
    o !! "num_records" = Some (PInt size) /\
    o !! "current_batch_number" = Some (PInt index) /\
    o !! "working_directory" = Some tempdir /\
    forall k,
      k ∉ ["mapping"; "generate_mapping_file"; "reset_oids"; "database_url";
           "num_records"; "current_batch_number"; "working_directory"] ->
      o !! k = self_options self !! k.
Proof.
  intros Hin.
  assert (exists locator name,
             staging_locator url tempdir = inr locator /\
             EvTempFile name ∈ (_generate_batch self url tempdir mapping size index w).2 /\
             o = generation_options (self_options self) mapping locator tempdir
                                    size index name)
    as (locator & name & Hloc & Hfile & ->).
  { batch_cases self url tempdir mapping size index w; cbn [snd] in *; in_record.
    all: injection Hin as -> _; exists locator, name; split; [assumption|];
      split; [|reflexivity].
    all: apply elem_of_app; right; apply elem_of_app; right; apply list_elem_of_here. }
  exists locator, name. split; [assumption|]. split; [assumption|]. split.
  { unfold generation_options, make_subtask_options.
    apply map_eq. intros k.
    destruct (decide (k = "generate_mapping_file")) as [->|]; [by simplify_map_eq|].
    destruct (decide (k = "reset_oids")) as [->|]; [by simplify_map_eq|].
    destruct (decide (k = "working_directory")) as [->|]; [by simplify_map_eq|].
    destruct (decide (k = "current_batch_number")) as [->|]; [by simplify_map_eq|].
    destruct (decide (k = "num_records")) as [->|]; [by simplify_map_eq|].
    destruct (decide (k = "database_url")) as [->|]; [by simplify_map_eq|].
    destruct (decide (k = "mapping")) as [->|]; by simplify_map_eq. }
  apply generation_options_lookup.
Qed.

Lemma loading_options_lookup (left : options) name k :
  k <> "mapping" -> loading_options left name !! k = left !! k.
Proof.
  intros Hk. unfold loading_options.
  destruct (truthy _); [reflexivity|]. by rewrite lookup_insert_ne.
Qed.

(** C4, as the code has it.  In a batch that was given no mapping file,
    a loading step that is invoked comes right after a generation step
    that returned; that step was handed an option bag with no mapping and
    with the scratch file name as [generate_mapping_file].  If it left
    the bag without a mapping, the loading step's [mapping] is that
    scratch file name, the rest of its bag being as the generation step
    left it; if it wrote a mapping into the bag, the loading step gets
    the bag as it was left.  And once the scratch file has been created,
    the batch ends by closing it, whatever the outcome of the batch: the
    last event is the close and the world left is the one after the
    unlink. *)
Theorem scratch_mapping_adopted_and_released (self : GenerateAndLoadData Task)
    url tempdir mapping size index (w : World) :
  truthy mapping = false ->
  let run := _generate_batch self url tempdir mapping size index w in
  (forall o r, EvDataload o r ∈ run.2 ->
     exists pre og left name,
       run.2 = pre ++ [EvTempFile name; EvDatagen og (inr left); EvDataload o r;
                       EvTempFileClose name] /\
       og !! "generate_mapping_file" = Some (PStr name) /\
       og !! "mapping" = Some mapping /\
       (truthy (dict_get left "mapping") = false ->
        o !! "mapping" = Some (PStr name) /\
        forall k, k <> "mapping" -> o !! k = left !! k) /\
       (truthy (dict_get left "mapping") = true -> o = left)) /\
  (forall name, EvTempFile name ∈ run.2 ->
     (exists pre, run.2 = pre ++ [EvTempFileClose name]) /\
     (exists w', run.1.2 = unlink name w')).
Proof.
  intros Hmap run. subst run.
  batch_cases self url tempdir mapping size index w; cbn [fst snd].
  1-5: split; [intros o r Hin | intros name Hin]; in_record.
  - split; [intros o r Hin | intros name' Hin]; in_record.
    injection Hin as ->. split; [|by eexists].
    eexists ([_; _] ++ cleanup_events tables ++ [_; _]).
    by rewrite <- !app_assoc.
  - split; [intros o r Hin | intros name' Hin]; in_record.
    + injection Hin as -> ->.
      eexists ([_; _] ++ cleanup_events tables), _, left, name.
      split; [by rewrite <- !app_assoc|].
      pose proof (generation_options_lookup (self_options self) mapping locator
                    tempdir size index name) as (Hm & Hg & _).
      cbv zeta in Hm, Hg. split; [exact Hg|]. split; [exact Hm|].
      split.
      * intros Hleft. split; [|intros k Hk; by apply loading_options_lookup].
        unfold loading_options. rewrite Hleft. by rewrite lookup_insert_eq.
      * intros Hleft. unfold loading_options. by rewrite Hleft.
    + injection Hin as ->. split; [|by eexists].
      eexists ([_; _] ++ cleanup_events tables ++ [_; _; _]).
      by rewrite <- !app_assoc.
Qed.

(** ** Exceptions *)










(** ** The staging database of a run *)



Lemma batch_events_locator (self : GenerateAndLoadData Task)
    url tempdir mapping size index w ev :
  ev ∈ (_generate_batch self url tempdir mapping size index w).2 ->
  match ev with
  | EvCreateEngine u _ => staging_locator url tempdir = inr u
  | EvDatagen o _ =>
      exists u, staging_locator url tempdir = inr u /\ o !! "database_url" = Some u
  | EvDataload o _ =>
      exists og left,
        EvDatagen og (inr left)
          ∈ (_generate_batch self url tempdir mapping size index w).2 /\
        o !! "database_url" = left !! "database_url"
  | _ => True
  end.
Proof.
  pose proof (fun opts name =>
                proj1 (proj2 (proj2 (proj2
                  (generation_options_lookup opts mapping
                     (match staging_locator url tempdir with
                      | inr u => u | inl _ => PNone end)
                     tempdir size index name))))) as Hgo.
  cbv zeta in Hgo.
  batch_cases self url tempdir mapping size index w; cbn [snd]; intros Hin;
    in_record; subst ev; try exact I; try exact Hloc.
  1-2: exists locator; (split; [exact Hloc|]); rewrite Hloc in Hgo; apply Hgo.
  eexists _, left. split; [|by apply loading_options_lookup].
  apply elem_of_app. right. apply elem_of_app. right.
  apply list_elem_of_further, list_elem_of_here.
Qed.


(** ** Validation *)

Lemma mapping_stage opts w :
  (if truthy (dict_get opts "mapping") then
     match dict_get opts "mapping" with
     | PStr p =>
         let* path := read (abspath p) in
         let* found := read (path_exists path) in
         if found : bool then ret (PStr path)
         else raise (TaskOptionsError (MappingNotFound path))
     | _ => raise TypeError
     end
   else ret PNone) w = (check_mapping opts w, w, []).
Proof.
  unfold check_mapping. cbv zeta.
  destruct (truthy (dict_get opts "mapping")); [|reflexivity].
  destruct (dict_get opts "mapping") as [| | |p]; try reflexivity.
  unfold bind, read.
  by destruct (path_exists (abspath p w) w).
Qed.

Lemma sizes_stage opts (k : Z -> Z -> M (GenerateAndLoadData Task)) w :
  (let* num_records :=
     match opts !! "num_records" with
     | Some v => lift_result (py_int v)
     | None => raise (KeyError "num_records")
     end in
   let* batch_size :=
     lift_result (py_int (dict_get_default opts "batch_size" (PInt num_records))) in
   if batch_size <=? 0 then raise (TaskOptionsError BatchSizeNotPositive)
   else k num_records batch_size) w =
  match check_sizes opts with
  | inl e => (inl e, w, [])
  | inr (n, b) => k n b w
  end.
Proof.
  unfold check_sizes, bind.
  destruct (opts !! "num_records") as [v|]; [|reflexivity].
  destruct (py_int v) as [e1|n]; [reflexivity|]. cbn [lift_result ret].
  destruct (py_int (dict_get_default opts "batch_size" (PInt n))) as [e2|b];
    [reflexivity|]. cbn [lift_result ret].
  destruct (b <=? 0); [reflexivity|].
  destruct (k n b w) as [[r w1] t1]. reflexivity.
Qed.

Lemma init_options_mapping_fails opts w e :
  check_mapping opts w = inl e -> _init_options opts w = (inl e, w, []).
Proof.
  intros H. unfold _init_options. cbv zeta.
  apply bind_raise. by rewrite mapping_stage, H.
Qed.

Lemma init_options_sizes_fail opts w mf e :
  check_mapping opts w = inr mf ->
  check_sizes opts = inl e ->
  _init_options opts w = (inl e, w, []).
Proof.
  intros Hm Hs. unfold _init_options. cbv zeta.
  erewrite bind_ok by (by rewrite mapping_stage, Hm).
  rewrite sizes_stage, Hs. reflexivity.
Qed.

Lemma init_options_checked opts w mf n b :
  check_mapping opts w = inr mf ->
  check_sizes opts = inr (n, b) ->
  _init_options opts w =
    match import_global (dict_get opts "data_generation_task") w with
    | (inl e, w1) => (inl e, w1, [])
    | (inr g, w1) =>
        let self := make_self opts mf n b g in
        if truthy (dict_get opts "database_url") then
          match create_engine (dict_get opts "database_url") w1 with
          | (inl e, w2) =>
              (inl e, w2, [EvCreateEngine (dict_get opts "database_url") (Some e)])
          | (inr engine, w2) =>
              match reflect engine w2 with
              | (inl e, w3) =>
                  (inl e, w3,
                   [EvCreateEngine (dict_get opts "database_url") None;
                    EvReflect (inl e)])
              | (inr tables, w3) =>
                  (if (negb (length tables =? 0)%nat
                       && negb (truthy (dict_get opts "replace_database")))%bool
                   then inl (TaskOptionsError
                               (DatabaseHasTables (dict_get opts "database_url") tables))
                   else inr self,
                   w3,
                   [EvCreateEngine (dict_get opts "database_url") None;
                    EvReflect (inr tables)])
              end
          end
        else (inr self, w1, [])
    end.
Proof.
  intros Hm Hs. unfold _init_options. cbv zeta.
  erewrite bind_ok by (by rewrite mapping_stage, Hm).
  rewrite sizes_stage, Hs. unfold bind, quiet.
  destruct (import_global (dict_get opts "data_generation_task") w) as [[e|g] w1];
    [reflexivity|].
  cbn [app]. unfold make_self.
  destruct (truthy (dict_get opts "database_url")); [|reflexivity].
  unfold _setup_engine, bind, call.
  destruct (create_engine (dict_get opts "database_url") w1) as [[e|engine] w2];
    [reflexivity|].
  destruct (reflect engine w2) as [[e|tables] w3]; [reflexivity|].
  cbn [ret app md_tables raised_of].
  destruct (negb (length tables =? 0)%nat
            && negb (truthy (dict_get opts "replace_database")))%bool; reflexivity.
Qed.

Lemma construct_and_call_fails opts w e w1 t :
  _init_options opts w = (inl e, w1, t) ->
  construct_and_call opts w = (inl e, w1, t).
Proof. intros H. unfold construct_and_call. by apply bind_raise. Qed.




Lemma init_options_succeeds opts w self :
  (_init_options opts w).1.1 = inr self ->
  exists mf n b g,
    check_mapping opts w = inr mf /\ check_sizes opts = inr (n, b) /\
    self = make_self opts mf n b g.
Proof.
  intros H.
  destruct (check_mapping opts w) as [e|mf] eqn:Hm.
  { rewrite (init_options_mapping_fails _ _ _ Hm) in H. discriminate. }
  destruct (check_sizes opts) as [e|[n b]] eqn:Hs.
  { rewrite (init_options_sizes_fail _ _ _ _ Hm Hs) in H. discriminate. }
  rewrite (init_options_checked _ _ _ _ _ Hm Hs) in H.
  exists mf, n, b.
  destruct (import_global _ w) as [[e|g] w1]; [discriminate|].
  exists g. split; [reflexivity|]. split; [reflexivity|].
  cbv zeta in H. destruct (truthy (dict_get opts "database_url")).
  - destruct (create_engine _ w1) as [[e|engine] w2]; [discriminate|].
    destruct (reflect engine w2) as [[e|tables] w3]; [discriminate|].
    cbn [fst] in H. destruct (_ && _)%bool; [discriminate|]. by injection H as <-.
  - by injection H as <-.
Qed.




Lemma length_eqb_nil {A} (l : list A) : (length l =? 0)%nat = true <-> l = [].
Proof. destruct l; cbn; split; intros; done. Qed.

Lemma database_check (opts : options) (tables : list string) :
  (negb (length tables =? 0)%nat
   && negb (truthy (dict_get opts "replace_database")))%bool = true <->
  tables <> [] /\ truthy (dict_get opts "replace_database") = false.
Proof.
  rewrite andb_true_iff, !negb_true_iff. split; intros [H1 H2]; (split; [|exact H2]).
  - intros ->. discriminate.
  - destruct tables; [done | reflexivity].
Qed.

(** C3. With a [database_url] and once the other checks have passed and
    the database has been reflected, setup raises a configuration error
    if and only if the reflected schema has at least one table and
    [replace_database] is not set (is not truthy).  The error is raised
    by [_init_options], after the two calls that look at the schema and
    before [_run_task]: no batch executes.  When the database has no
    table, or [replace_database] is set, setup returns the task. *)
Theorem database_reuse_needs_confirmation (opts : options) (w : World)
    mf n b g w1 engine w2 tables w3 :
  let url := dict_get opts "database_url" in
  let confirmed := truthy (dict_get opts "replace_database") in
  let looked := [EvCreateEngine url None; EvReflect (inr tables)] in
  truthy url = true ->
  check_mapping opts w = inr mf ->
  check_sizes opts = inr (n, b) ->
  import_global (dict_get opts "data_generation_task") w = (inr g, w1) ->
  create_engine url w1 = (inr engine, w2) ->
  reflect engine w2 = (inr tables, w3) ->
  ((exists e, (_init_options opts w).1.1 = inl e /\ is_config_error e = true) <->
   (tables <> [] /\ confirmed = false)) /\
  (tables <> [] -> confirmed = false ->
   _init_options opts w
     = (inl (TaskOptionsError (DatabaseHasTables url tables)), w3, looked) /\
   construct_and_call opts w
     = (inl (TaskOptionsError (DatabaseHasTables url tables)), w3, looked)) /\
  (tables = [] \/ confirmed = true ->
   _init_options opts w = (inr (make_self opts mf n b g), w3, looked)).
Proof.
  intros url confirmed looked Hurl Hm Hs Himp Hce Hre.
  pose proof (init_options_checked opts w mf n b Hm Hs) as Hinit.
  rewrite Himp in Hinit. cbv zeta in Hinit. fold url in Hinit.
  rewrite Hurl, Hce, Hre in Hinit. fold looked confirmed in Hinit.
  pose proof (database_check opts tables) as Hcheck. fold confirmed in Hcheck.
  destruct (negb (length tables =? 0)%nat && negb confirmed)%bool eqn:Hc.
  - destruct (proj1 Hcheck eq_refl) as [Hne Hno].
    split; [|split].
    + split; [intros _; by split|]. intros _. rewrite Hinit.
      eexists. split; reflexivity.
    + intros _ _. split; [exact Hinit | by apply construct_and_call_fails].
    + intros [->|Hyes]; [done | congruence].
  - assert (~ (tables <> [] /\ confirmed = false)) as Hnot.
    { intros H. apply Hcheck in H. discriminate. }
    split; [|split].
    + split; [|done]. intros (e & He & _). rewrite Hinit in He. discriminate.
    + intros Hne Hno. exfalso. by apply Hnot.
    + intros _. exact Hinit.
Qed.

(** C10. The check counts every reflected table.  With a [database_url]
    whose store holds nothing but tables named with the "sf_ids" suffix
    (none of which [_cleanup_object_tables] would drop), setup raises the
    configuration error exactly when [replace_database] is not set. *)
Theorem id_mapping_tables_count_as_tables (opts : options) (w : World)
    mf n b g w1 engine w2 tables w3 :
  let url := dict_get opts "database_url" in
  let confirmed := truthy (dict_get opts "replace_database") in
  truthy url = true ->
  check_mapping opts w = inr mf ->
  check_sizes opts = inr (n, b) ->
  import_global (dict_get opts "data_generation_task") w = (inr g, w1) ->
  create_engine url w1 = (inr engine, w2) ->
  reflect engine w2 = (inr tables, w3) ->
  tables <> [] ->
  Forall (fun t => endswith t "sf_ids" = true) tables ->
  tables_to_drop tables = [] /\
  (confirmed = false ->
   (_init_options opts w).1.1
     = inl (TaskOptionsError (DatabaseHasTables url tables)) /\
   (construct_and_call opts w).1.1
     = inl (TaskOptionsError (DatabaseHasTables url tables))) /\
  (confirmed = true ->
   (_init_options opts w).1.1 = inr (make_self opts mf n b g)).
Proof.
  intros url confirmed Hurl Hm Hs Himp Hce Hre Hne Hids.
  pose proof (init_options_checked opts w mf n b Hm Hs) as Hinit.
  rewrite Himp in Hinit. cbv zeta in Hinit. fold url in Hinit.
  rewrite Hurl, Hce, Hre in Hinit. fold confirmed in Hinit.
  pose proof (database_check opts tables) as Hcheck. fold confirmed in Hcheck.
  split; [|split].
  - apply elem_of_nil_inv. intros t Ht.
    apply tables_to_drop_spec in Ht as [Ht Hs'].
    eapply Forall_forall in Hids; [|exact Ht]. congruence.
  - intros Hno.
    destruct (negb (length tables =? 0)%nat && negb confirmed)%bool eqn:Hc.
    + split; [by rewrite Hinit|].
      by rewrite (construct_and_call_fails _ _ _ _ _ Hinit).
    + assert (false = true); [|discriminate]. by apply Hcheck.
  - intros Hyes. rewrite Hinit. cbn [fst]. by rewrite Hyes, andb_false_r.
Qed.

(** ** Setup: the mapping file, the database, the collaborators *)

Lemma check_mapping_passes opts w mf :
  check_mapping opts w = inr mf ->
  (truthy (dict_get opts "mapping") = false /\ mf = PNone) \/
  (exists p, dict_get opts "mapping" = PStr p /\ mf = PStr (abspath p w) /\
             path_exists (abspath p w) w = true).
Proof.
  unfold check_mapping. cbv zeta.
  destruct (truthy (dict_get opts "mapping")) eqn:Ht.
  - destruct (dict_get opts "mapping") as [| | |p]; try discriminate.
    destruct (path_exists (abspath p w) w) eqn:Hp; [|discriminate].
    intros [= <-]. right. by exists p.
  - intros [= <-]. by left.
Qed.

(** A mapping option that names a file that does not exist makes setup
    raise the configuration error "cannot be found", with the absolute
    path, before anything else is looked at: whatever the other options
    are (even with [num_records] missing), the world is untouched and
    nothing is recorded. *)
Theorem missing_mapping_file_rejected (opts : options) (w : World) (p : string) :
  dict_get opts "mapping" = PStr p ->
  p <> "" ->
  path_exists (abspath p w) w = false ->
  _init_options opts w
    = (inl (TaskOptionsError (MappingNotFound (abspath p w))), w, []).
Proof.
  intros Hm Hp Hex. apply init_options_mapping_fails.
  unfold check_mapping. cbv zeta. rewrite Hm. cbn [truthy].
  destruct (String.eqb p "") eqn:E; [by apply String.eqb_eq in E|].
  cbn [negb]. by rewrite Hex.
Qed.

(** A task that was set up has as [mapping_file] either [None], when the
    mapping option is unset (absent, [None], empty, false or zero), or the
    absolute path of the mapping option, and then that path exists. *)
Theorem mapping_file_after_setup (opts : options) (w : World)
    (self : GenerateAndLoadData Task) :
  (_init_options opts w).1.1 = inr self ->
  (truthy (dict_get opts "mapping") = false /\ mapping_file self = PNone) \/
  (exists p, dict_get opts "mapping" = PStr p /\
             mapping_file self = PStr (abspath p w) /\
             path_exists (abspath p w) w = true).
Proof.
  intros Hok.
  apply init_options_succeeds in Hok as (mf & n & b & g & Hm & _ & ->).
  cbn [mapping_file make_self]. by apply check_mapping_passes.
Qed.

(** Without a [database_url] (absent, [None] or empty) setup does not look
    at any database: it records no call at all, whatever its outcome, and
    the only collaborator that can have touched the world is
    [import_global]. *)
Theorem setup_without_database_url (opts : options) (w : World) :
  truthy (dict_get opts "database_url") = false ->
  (_init_options opts w).2 = [] /\
  ((_init_options opts w).1.2 = w \/
   (_init_options opts w).1.2
     = (import_global (dict_get opts "data_generation_task") w).2).
Proof.
  intros Hurl.
  destruct (check_mapping opts w) as [e|mf] eqn:Hm.
  { rewrite (init_options_mapping_fails _ _ _ Hm). split; [reflexivity | by left]. }
  destruct (check_sizes opts) as [e|[n b]] eqn:Hs.
  { rewrite (init_options_sizes_fail _ _ _ _ Hm Hs). split; [reflexivity | by left]. }
  rewrite (init_options_checked _ _ _ _ _ Hm Hs).
  destruct (import_global _ w) as [[e|g] w1]; cbv zeta; [|rewrite Hurl];
    (split; [reflexivity | by right]).
Qed.

(** Once the option checks have passed, an exception raised by
    [import_global], by [create_engine] or by the schema reflection is the
    outcome of setup as it is, not turned into a configuration error; the
    world is the one the raising call left, and the database is not looked
    at after a failed import. *)
Theorem setup_collaborator_failures (opts : options) (w : World) mf n b :
  check_mapping opts w = inr mf ->
  check_sizes opts = inr (n, b) ->
  let url := dict_get opts "database_url" in
  (forall e w1,
      import_global (dict_get opts "data_generation_task") w = (inl e, w1) ->
      _init_options opts w = (inl e, w1, [])) /\
  (forall g w1 e w2,
      import_global (dict_get opts "data_generation_task") w = (inr g, w1) ->
      truthy url = true ->
      create_engine url w1 = (inl e, w2) ->
      _init_options opts w = (inl e, w2, [EvCreateEngine url (Some e)])) /\
  (forall g w1 engine w2 e w3,
      import_global (dict_get opts "data_generation_task") w = (inr g, w1) ->
      truthy url = true ->
      create_engine url w1 = (inr engine, w2) ->
      reflect engine w2 = (inl e, w3) ->
      _init_options opts w
        = (inl e, w3, [EvCreateEngine url None; EvReflect (inl e)])).
Proof.
  intros Hm Hs url.
  pose proof (init_options_checked opts w mf n b Hm Hs) as Hinit. fold url in Hinit.
  split; [|split].
  - intros e w1 Himp. by rewrite Hinit, Himp.
  - intros g w1 e w2 Himp Hurl Hce. rewrite Hinit, Himp. cbv zeta.
    by rewrite Hurl, Hce.
  - intros g w1 engine w2 e w3 Himp Hurl Hce Hre. rewrite Hinit, Himp. cbv zeta.
    by rewrite Hurl, Hce, Hre.
Qed.

(** Setup only looks: whatever the options and the world, the calls it
    records are [create_engine] and the reflection; it drops no table,
    creates no temporary file or directory and invokes neither the
    generation nor the loading step. *)
Theorem setup_only_looks (opts : options) :
  emits (World := World) (fun ev => is_batch_event ev = false) (_init_options opts).
Proof. apply emits_init_options; reflexivity. Qed.

(** ** [_cleanup_object_tables] *)

Lemma string_length_append (p s : string) :
  String.length (p +:+ s) = (String.length p + String.length s)%nat.
Proof. induction p as [|c p IH]; simpl; [reflexivity | by f_equal]. Qed.

Lemma substring_whole (s : string) : substring 0 (String.length s) s = s.
Proof. induction s as [|c s IH]; simpl; [reflexivity | by f_equal]. Qed.

Lemma substring_after (p s : string) :
  substring (String.length p) (String.length s) (p +:+ s) = s.
Proof. induction p as [|c p IH]; simpl; [apply substring_whole | exact IH]. Qed.

Lemma substring_split (s : string) (m : nat) :
  (m <= String.length s)%nat ->
  s = substring 0 m s +:+ substring m (String.length s - m) s.
Proof.
  revert m. induction s as [|c s IH]; intros m Hm.
  - cbn in Hm. assert (m = 0%nat) as -> by lia. reflexivity.
  - destruct m as [|m].
    + by rewrite Nat.sub_0_r, substring_whole.
    + simpl in Hm. simpl.
      change (String c s = String c (substring 0 m s
                                     +:+ substring m (String.length s - m) s)).
      f_equal. apply IH. lia.
Qed.

Lemma endswith_spec (s suffix : string) :
  endswith s suffix = true <-> exists p, s = p +:+ suffix.
Proof.
  unfold endswith. cbv zeta. rewrite andb_true_iff, Nat.leb_le, String.eqb_eq. split.
  - intros [Hle Hsub]. exists (substring 0 (String.length s - String.length suffix) s).
    pose proof (substring_split s (String.length s - String.length suffix)
                  ltac:(lia)) as Hsplit.
    replace (String.length s - (String.length s - String.length suffix))%nat
      with (String.length suffix) in Hsplit by lia.
    by rewrite Hsub in Hsplit.
  - intros [p ->]. rewrite string_length_append. split; [lia|].
    replace (String.length p + String.length suffix - String.length suffix)%nat
      with (String.length p) by lia.
    apply substring_after.
Qed.

(** The tables [_cleanup_object_tables] asks to drop are the reflected
    tables whose name is not some prefix followed by "sf_ids", in the
    order of the reflection; asking again on what was asked changes
    nothing, and of the tables that are kept none is asked for. *)
Theorem tables_to_drop_characterised (tables : list string) :
  (forall t, t ∈ tables_to_drop tables <->
             t ∈ tables /\ ~ exists p, t = p +:+ "sf_ids") /\
  tables_to_drop tables `sublist_of` tables /\
  tables_to_drop (tables_to_drop tables) = tables_to_drop tables /\
  tables_to_drop (filter (fun t => endswith t "sf_ids" = true) tables) = [].
Proof.
  split; [|split; [|split]].
  - intros t. rewrite tables_to_drop_spec, <- endswith_spec.
    destruct (endswith t "sf_ids"); split; intros [? ?]; split; done.
  - unfold tables_to_drop. apply sublist_filter.
  - unfold tables_to_drop. rewrite list_filter_filter. apply list_filter_iff.
    tauto.
  - apply elem_of_nil_inv. intros t Ht.
    apply tables_to_drop_spec in Ht as [Ht Hs].
    apply list_elem_of_filter in Ht as [Ht' _]. congruence.
Qed.

(** When every reflected table is named with the "sf_ids" suffix, and so
    on an empty schema, [_cleanup_object_tables] does not call [drop_all]:
    it returns with the world untouched and nothing recorded.  When some
    table is not, it makes one call of [drop_all] with the tables to
    drop, and its outcome, an exception included, is that call's. *)
Theorem cleanup_object_tables_cases (metadata : MetaData Engine) (w : World) :
  (Forall (fun t => endswith t "sf_ids" = true) (md_tables metadata) ->
   _cleanup_object_tables metadata w = (inr tt, w, [])) /\
  (forall t, t ∈ md_tables metadata -> endswith t "sf_ids" = false ->
     let dropped := drop_all (md_bind metadata) (tables_to_drop (md_tables metadata)) w in
     _cleanup_object_tables metadata w
       = (dropped.1, dropped.2,
          [EvDropAll (tables_to_drop (md_tables metadata)) (raised_of dropped.1)])).
Proof.
  split.
  - intros Hids. unfold _cleanup_object_tables. cbv zeta.
    assert (tables_to_drop (md_tables metadata) = []) as ->; [|reflexivity].
    apply elem_of_nil_inv. intros t Ht.
    apply tables_to_drop_spec in Ht as [Ht Hs].
    eapply Forall_forall in Hids; [|exact Ht]. congruence.
  - intros t Ht Hs dropped. subst dropped.
    assert (t ∈ tables_to_drop (md_tables metadata)) as Hin
        by by apply tables_to_drop_spec.
    unfold _cleanup_object_tables. cbv zeta.
    destruct (tables_to_drop (md_tables metadata)) as [|t0 ts] eqn:E.
    + by apply not_elem_of_nil in Hin.
    + unfold call. by destruct (drop_all (md_bind metadata) (t0 :: ts) w) as [r w1].
Qed.

(** ** One batch: locator, option bags, scratch file *)

(** With a [database_url] the batch works on that locator as it is given:
    every engine it creates and the [database_url] it hands to the
    generation step is the caller's, whatever directory it was given,
    which is not looked at: a directory that is not a path does not make
    the batch fail.  The loading step is handed the [database_url] found
    in the bag as the generation step left it. *)
Theorem caller_database_used_as_is (self : GenerateAndLoadData Task)
    url tempdir mapping size index (w : World) :
  truthy url = true ->
  (forall ev, ev ∈ (_generate_batch self url tempdir mapping size index w).2 ->
     match ev with
     | EvCreateEngine u _ => u = url
     | EvDatagen o _ => o !! "database_url" = Some url
     | EvDataload o _ =>
         exists og left,
           EvDatagen og (inr left)
             ∈ (_generate_batch self url tempdir mapping size index w).2 /\
           og !! "database_url" = Some url /\
           o !! "database_url" = left !! "database_url"
     | _ => True
     end) /\
  (_generate_batch self url tempdir mapping size index w).2 <> [].
Proof.
  intros Hurl.
  assert (staging_locator url tempdir = inr url) as Hloc0
      by (unfold staging_locator; by rewrite Hurl).
  split.
  - intros ev Hin. pose proof (batch_events_locator _ _ _ _ _ _ _ _ Hin) as Hev.
    rewrite Hloc0 in Hev.
    destruct ev; try exact I.
    + by injection Hev as <-.
    + destruct Hev as (u & [= <-] & Ho). exact Ho.
    + destruct Hev as (og & left & Hog & Ho). exists og, left.
      split; [exact Hog|]. split; [|exact Ho].
      apply batch_events_locator in Hog. rewrite Hloc0 in Hog.
      destruct Hog as (u & [= <-] & Hu). exact Hu.
  - batch_cases self url tempdir mapping size index w; cbn [snd]; try discriminate.
    congruence.
Qed.

(** Without a [database_url], a batch that is given a directory that is
    not a string raises [TypeError] (from [Path(tempdir)]) before it calls
    any collaborator: the world is untouched and nothing is recorded. *)
Theorem transient_store_needs_a_path (self : GenerateAndLoadData Task)
    url tempdir mapping size index (w : World) :
  truthy url = false ->
  (forall d, tempdir <> PStr d) ->
  _generate_batch self url tempdir mapping size index w = (inl TypeError, w, []).
Proof.
  intros Hurl Hdir.
  assert (staging_locator url tempdir = inl TypeError) as Hloc0.
  { unfold staging_locator. rewrite Hurl. destruct tempdir; try reflexivity.
    by destruct (Hdir s). }
  batch_cases self url tempdir mapping size index w; congruence.
Qed.

(** In a batch that was given a mapping file, the generation step is
    handed that mapping, and when it leaves the [mapping] of the bag as it
    was, the loading step is handed the bag exactly as the generation step
    left it, with that mapping: the generated mapping is not adopted. *)
Theorem configured_mapping_used_by_both_steps (self : GenerateAndLoadData Task)
    url tempdir mapping size index (w : World) :
  truthy mapping = true ->
  forall o r,
    EvDataload o r ∈ (_generate_batch self url tempdir mapping size index w).2 ->
    exists og left,
      EvDatagen og (inr left)
        ∈ (_generate_batch self url tempdir mapping size index w).2 /\
      og !! "mapping" = Some mapping /\
      (left !! "mapping" = Some mapping ->
       o = left /\ o !! "mapping" = Some mapping).
Proof.
  intros Hmap o r.
  batch_cases self url tempdir mapping size index w; cbn [snd]; intros Hin; in_record.
  injection Hin as -> _.
  pose proof (generation_options_lookup (self_options self) mapping locator
                tempdir size index name) as (Hm & _). cbv zeta in Hm.
  eexists _, left. split; [|split; [exact Hm|]].
  - apply elem_of_app; right. apply elem_of_app; right.
    apply list_elem_of_further, list_elem_of_here.
  - intros Hleft.
    assert (loading_options left name = left) as ->; [|by split].
    unfold loading_options, dict_get. rewrite Hleft.
    cbn [default from_option id]. by rewrite Hmap.
Qed.

(** Whatever the mapping, the loading step of a batch is invoked only
    right after the generation step of that batch has returned, inside
    the life of the scratch file, and its option bag is the bag as the
    generation step left it, at every key but [mapping]; nothing before
    the generation step is a step. *)
Theorem loading_follows_generation (self : GenerateAndLoadData Task)
    url tempdir mapping size index (w : World) o' r :
  EvDataload o' r ∈ (_generate_batch self url tempdir mapping size index w).2 ->
  exists pre og left name,
    (_generate_batch self url tempdir mapping size index w).2
      = pre ++ [EvTempFile name; EvDatagen og (inr left); EvDataload o' r;
                EvTempFileClose name] /\
    o' = loading_options left name /\
    (forall k, k <> "mapping" -> o' !! k = left !! k) /\
    Forall (fun ev => is_step ev = false) pre.
Proof.
  batch_cases self url tempdir mapping size index w; cbn [snd]; intros Hin; in_record.
  injection Hin as -> ->.
  eexists ([_; _] ++ cleanup_events tables), _, left, name.
  split; [by rewrite <- !app_assoc|]. split; [reflexivity|]. split.
  - intros k Hk. by apply loading_options_lookup.
  - apply Forall_app. split; [by repeat constructor|].
    by apply cleanup_events_kind.
Qed.

(** Whatever the mapping and whatever the outcome, a batch creates at most
    one scratch file, creates it only once the tables have been cleaned
    up, and ends by closing it: the close is the last thing recorded and
    the unlink the last thing done to the world.  A batch that creates no
    scratch file invokes neither step. *)
Theorem scratch_file_scoped_to_batch (self : GenerateAndLoadData Task)
    url tempdir mapping size index (w : World) :
  let run := _generate_batch self url tempdir mapping size index w in
  (forall name, EvTempFile name ∈ run.2 ->
     exists tables steps w',
       run.2 = [EvCreateEngine (default PNone
                                  (match staging_locator url tempdir with
                                   | inr u => Some u | inl _ => None end)) None;
                EvReflect (inr tables)]
               ++ cleanup_events tables
               ++ [EvTempFile name] ++ steps ++ [EvTempFileClose name] /\
       Forall (fun ev => is_step ev = true) steps /\
       run.1.2 = unlink name w') /\
  ((forall name, EvTempFile name ∉ run.2) ->
   Forall (fun ev => is_step ev = false) run.2 /\ exists e, run.1.1 = inl e).
Proof.
  cbv zeta.
  batch_cases self url tempdir mapping size index w; cbn [fst snd]; rewrite ?Hloc;
    cbn [default from_option id].
  1-4: split; [intros name Hin; in_record
              | intros _; split; [by repeat constructor | by eexists]].
  - split; [intros name Hin; in_record|].
    intros _. split; [|by eexists].
    apply Forall_app; split;
      [by repeat constructor | by apply cleanup_events_kind].
  - split.
    + intros name' Hin; in_record. injection Hin as ->.
      eexists tables, [_], w5.
      split; [reflexivity|]. split; [by repeat constructor | reflexivity].
    + intros Hno. exfalso. apply (Hno name).
      apply elem_of_app; right. apply elem_of_app; right. apply list_elem_of_here.
  - split.
    + intros name' Hin; in_record. injection Hin as ->.
      eexists tables, [_; _], w6.
      split; [reflexivity|]. split; [by repeat constructor | reflexivity].
    + intros Hno. exfalso. apply (Hno name).
      apply elem_of_app; right. apply elem_of_app; right. apply list_elem_of_here.
Qed.

(** ** The whole run *)





Lemma generation_requests_app t1 t2 :
  generation_requests (t1 ++ t2) = generation_requests t1 ++ generation_requests t2.
Proof. apply omap_app. Qed.

Lemma loading_calls_app t1 t2 :
  loading_calls (t1 ++ t2) = (loading_calls t1 + loading_calls t2)%nat.
Proof. unfold loading_calls. by rewrite List.filter_app, length_app. Qed.

Lemma requests_cleanup tables :
  generation_requests (cleanup_events tables) = [] /\
  loading_calls (cleanup_events tables) = 0%nat.
Proof. unfold cleanup_events. by destruct (tables_to_drop tables). Qed.

Lemma step_requests opts mapping locator tempdir size index name :
  let og := generation_options opts mapping locator tempdir size index name in
  (og !! "num_records", og !! "current_batch_number") = request_of (size, index).
Proof.
  cbv zeta.
  pose proof (generation_options_lookup opts mapping locator tempdir size index name)
    as (_ & _ & _ & _ & Hn & Hc & _). cbv zeta in Hn, Hc.
  by rewrite Hn, Hc.
Qed.

Lemma batch_requests (self : GenerateAndLoadData Task)
    url tempdir mapping size index w :
  let run := _generate_batch self url tempdir mapping size index w in
  generation_requests run.2 `prefix_of` [request_of (size, index)] /\
  (loading_calls run.2 <= 1)%nat /\
  (forall u, run.1.1 = inr u ->
             generation_requests run.2 = [request_of (size, index)] /\
             loading_calls run.2 = 1%nat).
Proof.
  cbv zeta.
  pose proof (fun locator name =>
                step_requests (self_options self) mapping locator tempdir size index
                              name) as Hreq. cbv zeta in Hreq.
  batch_cases self url tempdir mapping size index w; cbn [fst snd];
    rewrite ?generation_requests_app, ?loading_calls_app,
            ?(proj1 (requests_cleanup _)), ?(proj2 (requests_cleanup _)).
  1-5: split; [apply prefix_nil|]; split; [cbn; lia | discriminate].
  - cbn. rewrite (Hreq locator name).
    split; [done|]. split; [lia | discriminate].
  - cbn. rewrite (Hreq locator name). split; [done|]. split; [lia | done].
Qed.

Lemma for_each_requests {A B} (f : event -> option B) (g : A -> B)
    (l : list A) (body : A -> M unit) w :
  (forall x w, omap f (body x w).2 `prefix_of` [g x]) ->
  (forall x w u, (body x w).1.1 = inr u -> omap f (body x w).2 = [g x]) ->
  omap f (for_each l body w).2 `prefix_of` map g l /\
  (forall u, (for_each l body w).1.1 = inr u -> omap f (for_each l body w).2 = map g l).
Proof.
  intros Hpre Hok. revert w. induction l as [|x l IH]; intros w.
  - cbn. split; [apply prefix_nil | reflexivity].
  - specialize (Hpre x w). specialize (Hok x w).
    destruct (body x w) as [[[e|u] w1] t1] eqn:Hx.
    + rewrite (for_each_cons_raise _ _ _ _ _ _ _ Hx). cbn [fst snd map] in *.
      split; [|discriminate].
      etrans; [exact Hpre|]. apply prefix_cons, prefix_nil.
    + rewrite (for_each_cons_ok _ _ _ _ _ _ _ Hx). cbn [fst snd map] in *.
      rewrite omap_app, (Hok u eq_refl). cbn [app].
      destruct (IH w1) as [Hp Ha]. split.
      * by apply prefix_cons.
      * intros u' Hu. f_equal. by apply (Ha u').
Qed.

Lemma for_each_calls {A} (l : list A) (body : A -> M unit) w :
  (forall x w, (loading_calls (body x w).2 <= 1)%nat) ->
  (forall x w u, (body x w).1.1 = inr u -> loading_calls (body x w).2 = 1%nat) ->
  (loading_calls (for_each l body w).2 <= length l)%nat /\
  (forall u, (for_each l body w).1.1 = inr u ->
             loading_calls (for_each l body w).2 = length l).
Proof.
  intros Hle Hok. revert w. induction l as [|x l IH]; intros w.
  - rewrite for_each_nil. cbn. split; [lia | reflexivity].
  - specialize (Hle x w). specialize (Hok x w).
    destruct (body x w) as [[[e|u] w1] t1] eqn:Hx.
    + rewrite (for_each_cons_raise _ _ _ _ _ _ _ Hx). cbn [fst snd length] in *.
      split; [lia | discriminate].
    + rewrite (for_each_cons_ok _ _ _ _ _ _ _ Hx). cbn [fst snd length] in *.
      rewrite loading_calls_app, (Hok u eq_refl).
      destruct (IH w1) as [Hp Ha]. split; [lia|].
      intros u' Hu. by rewrite (Ha u' Hu).
Qed.

Lemma run_task_body_requests (self : GenerateAndLoadData Task) d batch w :
  let run := _run_task_body self d batch w in
  generation_requests run.2 `prefix_of` [request_of batch] /\
  (loading_calls run.2 <= 1)%nat /\
  (forall u, run.1.1 = inr u ->
             generation_requests run.2 = [request_of batch] /\
             loading_calls run.2 = 1%nat).
Proof.
  destruct batch as [s i]. cbv zeta. rewrite run_task_body_unfold. cbv zeta.
  cbn [fst snd].
  change (EvInfo s i (num_records self) :: ?t)
    with ([EvInfo s i (num_records self)] ++ t).
  rewrite generation_requests_app, loading_calls_app.
  change (generation_requests [EvInfo s i (num_records self)]) with
    (@nil (option pyval * option pyval)).
  change (loading_calls [EvInfo s i (num_records self)]) with 0%nat.
  cbn [app Nat.add]. apply batch_requests.
Qed.

(** For a task with a total of at least zero and a positive batch size, a
    run invokes the generation step at most once per batch, in the order
    of the partition, each time for the batch's size and index, and it
    invokes the loading step at most as many times as there are batches;
    a run that completes has invoked the generation step exactly once for
    every batch of the partition, in order, and the loading step as many
    times as there are batches. *)
Theorem run_requests_follow_partition (self : GenerateAndLoadData Task) (w : World) :
  0 <= num_records self ->
  0 < batch_size self ->
  let batches := generate_batches (num_records self) (batch_size self) in
  generation_requests (_run_task self w).2 `prefix_of` map request_of batches /\
  (loading_calls (_run_task self w).2 <= length batches)%nat /\
  (forall u, (_run_task self w).1.1 = inr u ->
             generation_requests (_run_task self w).2 = map request_of batches /\
             loading_calls (_run_task self w).2 = length batches).
Proof.
  intros _ _. cbv zeta.
  destruct (mkdtemp w) as [[e0|d] w0] eqn:Hd.
  { rewrite (run_task_no_directory self w e0 w0 Hd). cbn [fst snd].
    split; [apply prefix_nil|]. split; [cbn; lia | discriminate]. }
  rewrite (run_task_unfold self w d w0 Hd). cbv zeta. cbn [fst snd].
  assert (forall t,
             generation_requests (EvTempDir d :: t ++ [EvTempDirCleanup d])
               = generation_requests t /\
             loading_calls (EvTempDir d :: t ++ [EvTempDirCleanup d])
               = loading_calls t) as Hwrap.
  { intros t. change (EvTempDir d :: t ++ [EvTempDirCleanup d])
      with ([EvTempDir d] ++ t ++ [EvTempDirCleanup d]).
    rewrite !generation_requests_app, !loading_calls_app. cbn.
    rewrite app_nil_r. split; [reflexivity | lia]. }
  rewrite (proj1 (Hwrap _)), (proj2 (Hwrap _)).
  destruct (for_each_requests
              (fun ev => match ev with
                         | EvDatagen o _ =>
                             Some (o !! "num_records", o !! "current_batch_number")
                         | _ => None
                         end) request_of
              (generate_batches (num_records self) (batch_size self))
              (_run_task_body self d) w0) as [Hgp Hga].
  { intros x w'. exact (proj1 (run_task_body_requests self d x w')). }
  { intros x w' u Hu.
    exact (proj1 (proj2 (proj2 (run_task_body_requests self d x w')) u Hu)). }
  destruct (for_each_calls
              (generate_batches (num_records self) (batch_size self))
              (_run_task_body self d) w0) as [Hlp Hla].
  { intros x w'. exact (proj1 (proj2 (run_task_body_requests self d x w'))). }
  { intros x w' u Hu.
    exact (proj2 (proj2 (proj2 (run_task_body_requests self d x w')) u Hu)). }
  split; [exact Hgp|]. split; [exact Hlp|].
  intros u Hu. split; [by apply (Hga u) | by apply (Hla u)].
Qed.



End Properties.

(** ** The properties on concrete runs *)

Import Sim.

Example run_10_4_batches :
  infos_of (_run_task task_10_4 empty_world).2 = [(4, 0); (4, 1); (2, 2)].
Proof. vm_compute. reflexivity. Qed.

Example run_10_4_store :
  stores (_run_task task_10_4 empty_world).1.2
    = {[ "sqlite:////tmp/tmp/generated_data.db" := ["contacts_sf_ids"; "contacts"] ]}
  /\ files (_run_task task_10_4 empty_world).1.2 = ∅.
Proof. vm_compute. split; reflexivity. Qed.

Example run_keep_drops_object_tables_only :
  filter (fun ev => match ev with EvDropAll _ _ => true | _ => false end = true)
         (construct_and_call options_keep_confirmed world_used).2
    = [EvDropAll ["contacts"] None].
Proof. vm_compute. reflexivity. Qed.

Example run_negative_total_is_set_up :
  (_init_options options_neg_5 empty_world).1.1
    = inr (make_self options_neg_5 PNone (-3) 5
                     ContactsFactory).
Proof. vm_compute. reflexivity. Qed.

Lemma batch_loop_partition_witness :
  sum_sizes (generate_batches 10 4).*1 = 10 /\
  infos_of (_run_task task_10_4 empty_world).2 = generate_batches 10 4.
Proof.
  destruct (batch_loop_partition (World := world) 10 4 ltac:(lia) ltac:(lia))
    as (Hsum & _ & _ & _ & _ & Hrun).
  split; [exact Hsum|].
  destruct (Hrun task_10_4 empty_world eq_refl eq_refl) as (_ & Hall & _).
  apply (Hall tt). vm_compute. reflexivity.
Defined.

Lemma object_tables_dropped_before_generation_witness :
  exists tables name,
    [EvCreateEngine (PStr "sqlite:///keep.db") None;
     EvReflect (inr ["contacts"; "contacts_sf_ids"]);
     EvDropAll ["contacts"] None;
     EvTempFile "/tmp/tmp_mapping.yml"]
    = [EvCreateEngine
         (dict_get (generation_options options_keep_confirmed PNone
                      (PStr "sqlite:///keep.db") (PStr "/tmp/run") 10 0
                      "/tmp/tmp_mapping.yml") "database_url") None;
       EvReflect (inr tables)]
      ++ cleanup_events tables ++ [EvTempFile name] /\
    forall t, t ∈ tables -> endswith t "sf_ids" = false ->
              t ∈ tables_to_drop tables /\
              EvDropAll (tables_to_drop tables) None
                ∈ [EvCreateEngine (PStr "sqlite:///keep.db") None;
                   EvReflect (inr ["contacts"; "contacts_sf_ids"]);
                   EvDropAll ["contacts"] None;
                   EvTempFile "/tmp/tmp_mapping.yml"].
Proof.
  apply (proj1 (object_tables_dropped_before_generation (World := world))
           task_keep (PStr "sqlite:///keep.db") (PStr "/tmp/run") PNone 10 0
           world_used _ _
           (inr (generation_options options_keep_confirmed PNone
                   (PStr "sqlite:///keep.db") (PStr "/tmp/run") 10 0
                   "/tmp/tmp_mapping.yml"))
           [EvDataload (loading_options
                          (generation_options options_keep_confirmed PNone
                             (PStr "sqlite:///keep.db") (PStr "/tmp/run") 10 0
                             "/tmp/tmp_mapping.yml")
                          "/tmp/tmp_mapping.yml") None;
            EvTempFileClose "/tmp/tmp_mapping.yml"]).
  vm_compute. reflexivity.
Defined.

Lemma database_reuse_needs_confirmation_witness :
  construct_and_call options_keep world_used
    = (inl (TaskOptionsError
              (DatabaseHasTables (PStr "sqlite:///keep.db")
                                 ["contacts"; "contacts_sf_ids"])),
       world_used,
       [EvCreateEngine (PStr "sqlite:///keep.db") None;
        EvReflect (inr ["contacts"; "contacts_sf_ids"])]).
Proof.
  destruct (database_reuse_needs_confirmation (World := world)
              options_keep world_used PNone 10 10 ContactsFactory world_used
              "sqlite:///keep.db" world_used ["contacts"; "contacts_sf_ids"]
              world_used
              ltac:(vm_compute; reflexivity) ltac:(vm_compute; reflexivity)
              ltac:(vm_compute; reflexivity) ltac:(vm_compute; reflexivity)
              ltac:(vm_compute; reflexivity) ltac:(vm_compute; reflexivity))
    as (_ & Hraise & _).
  apply Hraise; [discriminate | vm_compute; reflexivity].
Defined.

(** C4 as stated fails when the generation step writes a mapping into
    the option bag it is handed: no mapping file was configured, the
    generation step was given [/tmp/tmp_mapping.yml] as its generated
    mapping path, the batch completes, and the loading step is invoked
    with the mapping the generation step left in the bag. *)
Lemma generated_mapping_not_adopted :
  let run := _generate_batch writing_10_4 (database_url writing_10_4)
               (PStr "/tmp/run") (mapping_file writing_10_4) 4 0
               world_generator_mapping in
  mapping_file writing_10_4 = PNone /\
  run.1.1 = inr tt /\
  omap (fun ev => match ev with
                  | EvDatagen og _ =>
                      Some (inl (og !! "mapping", og !! "generate_mapping_file"))
                  | EvDataload o _ => Some (inr (o !! "mapping"))
                  | _ => None
                  end) run.2
    = [inl (Some PNone, Some (PStr "/tmp/tmp_mapping.yml"));
       inr (Some (PStr "/repo/from_generator.yml"))].
Proof. vm_compute. repeat split; reflexivity. Qed.

Lemma scratch_mapping_adopted_and_released_witness :
  exists pre og left name,
    (_generate_batch task_10_4 PNone (PStr "/tmp/run") PNone 4 0 empty_world).2
      = pre ++ [EvTempFile name; EvDatagen og (inr left);
                EvDataload
                  (loading_options
                     (generation_options options_10_4 PNone
                        (PStr "sqlite:////tmp/run/generated_data.db")
                        (PStr "/tmp/run") 4 0 "/tmp/tmp_mapping.yml")
                     "/tmp/tmp_mapping.yml") None;
                EvTempFileClose name] /\
    og !! "generate_mapping_file" = Some (PStr name) /\
    og !! "mapping" = Some PNone /\
    (truthy (dict_get left "mapping") = false ->
     loading_options
       (generation_options options_10_4 PNone
          (PStr "sqlite:////tmp/run/generated_data.db")
          (PStr "/tmp/run") 4 0 "/tmp/tmp_mapping.yml")
       "/tmp/tmp_mapping.yml" !! "mapping" = Some (PStr name) /\
     forall k, k <> "mapping" ->
       loading_options
         (generation_options options_10_4 PNone
            (PStr "sqlite:////tmp/run/generated_data.db")
            (PStr "/tmp/run") 4 0 "/tmp/tmp_mapping.yml")
         "/tmp/tmp_mapping.yml" !! k = left !! k) /\
    (truthy (dict_get left "mapping") = true ->
     loading_options
       (generation_options options_10_4 PNone
          (PStr "sqlite:////tmp/run/generated_data.db")
          (PStr "/tmp/run") 4 0 "/tmp/tmp_mapping.yml")
       "/tmp/tmp_mapping.yml" = left).
Proof.
  destruct (scratch_mapping_adopted_and_released (World := world)
              task_10_4 PNone (PStr "/tmp/run") PNone 4 0 empty_world eq_refl)
    as [Hload _].
  apply (Hload (loading_options
                  (generation_options options_10_4 PNone
                     (PStr "sqlite:////tmp/run/generated_data.db")
                     (PStr "/tmp/run") 4 0 "/tmp/tmp_mapping.yml")
                  "/tmp/tmp_mapping.yml") None).
  apply list_elem_of_In. vm_compute. do 4 right. left. reflexivity.
Defined.


Lemma generation_step_options_witness :
  generation_options options_10_4 PNone
    (PStr "sqlite:////tmp/run/generated_data.db") (PStr "/tmp/run") 4 0
    "/tmp/tmp_mapping.yml" !! "num_records" = Some (PInt 4).
Proof.
  destruct (generation_step_options (World := world)
              task_10_4 PNone (PStr "/tmp/run") PNone 4 0 empty_world
              (generation_options options_10_4 PNone
                 (PStr "sqlite:////tmp/run/generated_data.db") (PStr "/tmp/run") 4 0
                 "/tmp/tmp_mapping.yml")
              (inr (generation_options options_10_4 PNone
                      (PStr "sqlite:////tmp/run/generated_data.db")
                      (PStr "/tmp/run") 4 0 "/tmp/tmp_mapping.yml")))
    as (locator & name & _ & _ & _ & _ & _ & _ & _ & Hnum & _).
  { apply list_elem_of_In. vm_compute. do 3 right. left. reflexivity. }
  exact Hnum.
Defined.





Lemma id_mapping_tables_count_as_tables_witness :
  tables_to_drop ["contacts_sf_ids"] = [] /\
  (construct_and_call options_keep world_ids_only).1.1
    = inl (TaskOptionsError
             (DatabaseHasTables (PStr "sqlite:///keep.db") ["contacts_sf_ids"])).
Proof.
  destruct (id_mapping_tables_count_as_tables (World := world)
              options_keep world_ids_only PNone 10 10 ContactsFactory world_ids_only
              "sqlite:///keep.db" world_ids_only ["contacts_sf_ids"] world_ids_only
              ltac:(vm_compute; reflexivity) ltac:(vm_compute; reflexivity)
              ltac:(vm_compute; reflexivity) ltac:(vm_compute; reflexivity)
              ltac:(vm_compute; reflexivity) ltac:(vm_compute; reflexivity)
              ltac:(discriminate) ltac:(by repeat constructor))
    as (Hkeep & Hraise & _).
  split; [exact Hkeep|]. apply Hraise. vm_compute. reflexivity.
Defined.

(** ** The further properties on concrete runs *)

Lemma missing_mapping_file_rejected_witness :
  _init_options options_mapping_only empty_world
    = (inl (TaskOptionsError (MappingNotFound "/repo/missing.yml")), empty_world, []).
Proof.
  exact (missing_mapping_file_rejected (World := world)
           options_mapping_only empty_world "missing.yml"
           ltac:(vm_compute; reflexivity) ltac:(discriminate)
           ltac:(vm_compute; reflexivity)).
Defined.

Lemma mapping_file_after_setup_witness :
  (truthy (dict_get options_mapping "mapping") = false /\
   mapping_file task_mapping = PNone) \/
  (exists p, dict_get options_mapping "mapping" = PStr p /\
             mapping_file task_mapping = PStr (abspath p world_with_mapping) /\
             path_exists (abspath p world_with_mapping) world_with_mapping = true).
Proof.
  assert ((_init_options options_mapping world_with_mapping).1.1 = inr task_mapping)
    as Hok by (vm_compute; reflexivity).
  exact (mapping_file_after_setup options_mapping world_with_mapping task_mapping Hok).
Defined.

Lemma setup_without_database_url_witness :
  (_init_options options_10_4 empty_world).2 = [].
Proof.
  exact (proj1 (setup_without_database_url (World := world)
                  options_10_4 empty_world ltac:(vm_compute; reflexivity))).
Defined.

Lemma setup_collaborator_failures_witness :
  _init_options options_no_class empty_world
    = (inl (OtherError "ImportError"), empty_world, []).
Proof.
  exact (proj1 (setup_collaborator_failures (World := world)
                  options_no_class empty_world PNone 10 10
                  ltac:(vm_compute; reflexivity) ltac:(vm_compute; reflexivity))
           (OtherError "ImportError") empty_world ltac:(vm_compute; reflexivity)).
Defined.

Lemma cleanup_object_tables_cases_witness :
  _cleanup_object_tables metadata_used world_used
    = ((drop_all "sqlite:///keep.db" (tables_to_drop ["contacts"; "contacts_sf_ids"])
          world_used).1,
       (drop_all "sqlite:///keep.db" (tables_to_drop ["contacts"; "contacts_sf_ids"])
          world_used).2,
       [EvDropAll (tables_to_drop ["contacts"; "contacts_sf_ids"])
          (raised_of (drop_all "sqlite:///keep.db"
                        (tables_to_drop ["contacts"; "contacts_sf_ids"]) world_used).1)]).
Proof.
  exact (proj2 (cleanup_object_tables_cases (World := world) metadata_used world_used)
           "contacts" ltac:(apply list_elem_of_here) ltac:(vm_compute; reflexivity)).
Defined.

Lemma caller_database_used_as_is_witness :
  (_generate_batch task_keep (PStr "sqlite:///keep.db") (PInt 7) PNone 10 0
     world_used).2 <> [].
Proof.
  exact (proj2 (caller_database_used_as_is (World := world)
                  task_keep (PStr "sqlite:///keep.db") (PInt 7) PNone 10 0 world_used
                  ltac:(vm_compute; reflexivity))).
Defined.

Lemma transient_store_needs_a_path_witness :
  _generate_batch task_debug_7 PNone (PInt 7) PNone 4 0 empty_world
    = (inl TypeError, empty_world, []).
Proof.
  exact (transient_store_needs_a_path (World := world)
           task_debug_7 PNone (PInt 7) PNone 4 0 empty_world
           ltac:(vm_compute; reflexivity) ltac:(intros d; discriminate)).
Defined.

Lemma configured_mapping_used_by_both_steps_witness :
  exists og left,
    EvDatagen og (inr left)
      ∈ (_generate_batch task_mapping PNone (PStr "/tmp/run")
           (PStr "/repo/mapping.yml") 10 0 world_with_mapping).2 /\
    og !! "mapping" = Some (PStr "/repo/mapping.yml") /\
    (left !! "mapping" = Some (PStr "/repo/mapping.yml") ->
     generation_options options_mapping (PStr "/repo/mapping.yml")
       (PStr "sqlite:////tmp/run/generated_data.db") (PStr "/tmp/run") 10 0
       "/tmp/tmp_mapping.yml" = left /\
     generation_options options_mapping (PStr "/repo/mapping.yml")
       (PStr "sqlite:////tmp/run/generated_data.db") (PStr "/tmp/run") 10 0
       "/tmp/tmp_mapping.yml" !! "mapping" = Some (PStr "/repo/mapping.yml")).
Proof.
  assert (truthy (PStr "/repo/mapping.yml") = true) as Hmap by reflexivity.
  apply (configured_mapping_used_by_both_steps (World := world)
           task_mapping PNone (PStr "/tmp/run") (PStr "/repo/mapping.yml") 10 0
           world_with_mapping Hmap
           (generation_options options_mapping (PStr "/repo/mapping.yml")
              (PStr "sqlite:////tmp/run/generated_data.db") (PStr "/tmp/run")
              10 0 "/tmp/tmp_mapping.yml") None).
  apply list_elem_of_In. vm_compute. do 4 right. left. reflexivity.
Defined.

(** What the loading step is handed follows what the generation step left
    in the bag, here another count and a mapping of its own. *)
Example writing_generator_is_followed :
  omap (fun ev => match ev with
                  | EvDatagen og _ => Some (og !! "num_records", og !! "mapping")
                  | EvDataload o _ => Some (o !! "num_records", o !! "mapping")
                  | _ => None
                  end)
       (_generate_batch writing_10_4 PNone (PStr "/tmp/run") PNone 4 0
          world_generator_mapping).2
    = [(Some (PInt 4), Some PNone);
       (Some (PInt 999), Some (PStr "/repo/from_generator.yml"))].
Proof. vm_compute. reflexivity. Qed.

Lemma loading_follows_generation_witness :
  exists pre og left name,
    (_generate_batch writing_10_4 PNone (PStr "/tmp/run") PNone 4 0
       world_generator_mapping).2
      = pre ++ [EvTempFile name; EvDatagen og (inr left);
                EvDataload
                  (<["num_records" := PInt 999]>
                     (<["mapping" := PStr "/repo/from_generator.yml"]>
                        (generation_options options_10_4 PNone
                           (PStr "sqlite:////tmp/run/generated_data.db")
                           (PStr "/tmp/run") 4 0 "/tmp/tmp_mapping.yml"))) None;
                EvTempFileClose name] /\
    <["num_records" := PInt 999]>
      (<["mapping" := PStr "/repo/from_generator.yml"]>
         (generation_options options_10_4 PNone
            (PStr "sqlite:////tmp/run/generated_data.db")
            (PStr "/tmp/run") 4 0 "/tmp/tmp_mapping.yml"))
      = loading_options left name /\
    (forall k, k <> "mapping" ->
       <["num_records" := PInt 999]>
         (<["mapping" := PStr "/repo/from_generator.yml"]>
            (generation_options options_10_4 PNone
               (PStr "sqlite:////tmp/run/generated_data.db")
               (PStr "/tmp/run") 4 0 "/tmp/tmp_mapping.yml")) !! k = left !! k) /\
    Forall (fun ev => is_step ev = false) pre.
Proof.
  apply (loading_follows_generation (World := world)
           writing_10_4 PNone (PStr "/tmp/run") PNone 4 0 world_generator_mapping).
  apply list_elem_of_In. vm_compute. do 4 right. left. reflexivity.
Defined.

Lemma scratch_file_scoped_to_batch_witness :
  exists tables steps w',
    (_generate_batch flaky_10_4 PNone (PStr "/tmp/run") PNone 4 1 empty_world).2
      = [EvCreateEngine
           (default PNone
              (match staging_locator PNone (PStr "/tmp/run") with
               | inr u => Some u | inl _ => None end)) None;
         EvReflect (inr tables)]
        ++ cleanup_events tables
        ++ [EvTempFile "/tmp/tmp_mapping.yml"] ++ steps
        ++ [EvTempFileClose "/tmp/tmp_mapping.yml"] /\
    Forall (fun ev => is_step ev = true) steps /\
    (_generate_batch flaky_10_4 PNone (PStr "/tmp/run") PNone 4 1 empty_world).1.2
      = unlink "/tmp/tmp_mapping.yml" w'.
Proof.
  apply (proj1 (scratch_file_scoped_to_batch (World := world)
                  flaky_10_4 PNone (PStr "/tmp/run") PNone 4 1 empty_world)
           "/tmp/tmp_mapping.yml").
  apply list_elem_of_In. vm_compute. do 2 right. left. reflexivity.
Defined.


Lemma run_requests_follow_partition_witness :
  generation_requests (_run_task task_10_4 empty_world).2
    = map request_of (generate_batches (num_records task_10_4) (batch_size task_10_4)) /\
  loading_calls (_run_task task_10_4 empty_world).2
    = length (generate_batches (num_records task_10_4) (batch_size task_10_4)).
Proof.
  assert ((_run_task task_10_4 empty_world).1.1 = inr tt) as Hok
      by (vm_compute; reflexivity).
  assert (0 <= num_records task_10_4) as Hn by (simpl; lia).
  assert (0 < batch_size task_10_4) as Hb by (simpl; lia).
  exact (proj2 (proj2 (run_requests_follow_partition task_10_4 empty_world Hn Hb))
           tt Hok).
Defined.

(** A run in a world where no temporary directory can be created. *)
Example run_without_temporary_directory :
  _run_task task_10_4 world_no_tmp
    = (inl (OtherError "FileNotFoundError"), world_no_tmp, []).
Proof. vm_compute. reflexivity. Qed.

